(** * MCP server boilerplate: a shallow embedding of [src/index.ts]

    The server registers six tools (greet, calculator, time, geocode,
    get-weather, generate-image), one prompt (code-review) and one resource
    (server-info) on an [McpServer].  Every handler is an [async] closure; it
    is embedded here as a total function from its validated arguments and
    from whatever the outside world answers (the clock, the process time
    zone, an HTTP reply, the environment) to an [Outcome]: the promise
    either resolves with a response or rejects with a thrown value.

    JavaScript values are embedded as follows.
    - A [string] is the UTF-8 byte sequence of the JavaScript string.  The
      handlers only concatenate, compare against ASCII literals, search for
      an ASCII needle and lowercase, which agree on UTF-8 and UTF-16 for
      well-formed text.
    - A [number] is an IEEE-754 binary64 value ([float]); [+], [-], [*], [/]
      and [===] are the primitive operations.
    - Integers that the code only ever formats (calendar fields, HTTP
      status codes) are [Z]. *)

From Stdlib Require Import ZArith String Ascii List Bool Floats Uint63 DecimalString Lia.
From Stdlib Require DecimalPos DecimalZ.
Import ListNotations.
Open Scope string_scope.
Open Scope Z_scope.

(** ** The JavaScript runtime the handlers call into *)

Module JS.

(** [String(n)] for an integer-valued number below 10^21 in magnitude:
    the decimal digits, with a leading minus sign when negative. *)
Definition intToString (z : Z) : string :=
  NilZero.string_of_int (Z.to_int z).

Fixpoint repeat_char (c : ascii) (n : nat) : string :=
  match n with
  | O => EmptyString
  | S k => String c (repeat_char c k)
  end.

(** *** Number::toString (ECMA-262 6.1.6.1.20), radix 10

    A finite non-zero double is [m * 2^e].  The digits printed are the
    shortest decimal [s * 10^(n-k)] (with [k] digits) that reads back as
    the same double, the closest one when several have that length. *)

(** Least [n] from the start value on with [num/den < 10^n]. *)
Fixpoint decimal_order (fuel : nat) (n num den : Z) : Z :=
  match fuel with
  | O => n
  | S f =>
      if (if 0 <=? n then num <? den * 10 ^ n else num * 10 ^ (- n) <? den)
      then n
      else decimal_order f (n + 1) num den
  end.

(** [s * 10^p] compared with the rational [N / D]. *)
Definition cmp_pow10 (s p N D : Z) : comparison :=
  if 0 <=? p then (s * 10 ^ p * D ?= N) else (s * D ?= N * 10 ^ (- p)).

(** Does [s * 10^p] round to the double whose rounding interval is
    [loN/D, hiN/D]?  The end points belong to it when the mantissa is even
    (round half to even). *)
Definition in_interval (incl : bool) (s p loN hiN D : Z) : bool :=
  match cmp_pow10 s p loN D, cmp_pow10 s p hiN D with
  | Gt, Lt => true
  | Eq, Lt => incl
  | Gt, Eq => incl
  | _, _ => false
  end.

(** Tries [k] digits, then [k+1], ...: the two [k]-digit neighbours of the
    value are the only candidates that can be closest to it. *)
Fixpoint shortest (fuel : nat) (k n : Z) (incl : bool) (vN loN hiN D : Z)
  : Z * Z * Z :=
  let p := n - k in
  let s_lo := if 0 <=? p then vN / (D * 10 ^ p) else (vN * 10 ^ (- p)) / D in
  let s_hi := s_lo + 1 in
  let ok_lo := in_interval incl s_lo p loN hiN D in
  let ok_hi := in_interval incl s_hi p loN hiN D in
  let hi_closer :=
    match cmp_pow10 (s_lo + s_hi) p (2 * vN) D with
    | Lt => true
    | Gt => false
    | Eq => Z.odd s_lo
    end in
  let pick :=
    if ok_lo && ok_hi then Some (if hi_closer then s_hi else s_lo)
    else if ok_lo then Some s_lo
    else if ok_hi then Some s_hi
    else None in
  match pick, fuel with
  | Some s, _ => (s, k, n)
  | None, O => (s_lo, k, n)
  | None, S f => shortest f (k + 1) n incl vN loN hiN D
  end.

(** The triple [(s, k, n)] of Number::toString for the double [m * 2^e]. *)
Definition digits_of (m e : Z) : Z * Z * Z :=
  let lowest := (m =? 2 ^ 52) && negb (e =? -1074) in
  let sh := e - 2 in
  let loN0 := if lowest then 4 * m - 1 else 4 * m - 2 in
  let '(vN, loN, hiN, D) :=
    if 0 <=? sh
    then (4 * m * 2 ^ sh, loN0 * 2 ^ sh, (4 * m + 2) * 2 ^ sh, 1)
    else (4 * m, loN0, 4 * m + 2, 2 ^ (- sh)) in
  let l := Z.log2 vN - Z.log2 D - 1 in
  let start := (if 0 <=? l then l * 30102 / 100000 else l * 30103 / 100000) - 1 in
  let n := decimal_order 8 start vN D in
  let '(s, k, n) := shortest 17 1 n (Z.even m) vN loN hiN D in
  if s =? 10 ^ k then (1, 1, n + 1) else (s, k, n).

Definition format_digits (s k n : Z) : string :=
  let ds := intToString s in
  if (k <=? n) && (n <=? 21) then
    ds ++ repeat_char "0" (Z.to_nat (n - k))
  else if (0 <? n) && (n <=? 21) then
    substring 0 (Z.to_nat n) ds ++ "." ++
    substring (Z.to_nat n) (Z.to_nat (k - n)) ds
  else if (-6 <? n) && (n <=? 0) then
    "0." ++ repeat_char "0" (Z.to_nat (- n)) ++ ds
  else
    let ex := n - 1 in
    let es := (if 0 <=? ex then "+" else "-") ++ intToString (Z.abs ex) in
    if k =? 1 then ds ++ "e" ++ es
    else substring 0 1 ds ++ "." ++ substring 1 (Z.to_nat (k - 1)) ds ++ "e" ++ es.

(** [String(x)], which is also what a template literal does to a number. *)
Definition numToString (x : float) : string :=
  match Prim2SF x with
  | S754_nan => "NaN"
  | S754_zero _ => "0"
  | S754_infinity neg => if neg then "-Infinity" else "Infinity"
  | S754_finite neg m e =>
      let '(s, k, n) := digits_of (Zpos m) e in
      (if neg then "-" else "") ++ format_digits s k n
  end.

(** [s.padStart(2, '0')] *)
Definition padStart2 (s : string) : string :=
  match String.length s with
  | O => "00"
  | S O => "0" ++ s
  | _ => s
  end.

(** *** Digits and [parseInt(s, 10)] *)

Definition is_digit (c : ascii) : bool :=
  let n := Z.of_nat (nat_of_ascii c) in (48 <=? n) && (n <=? 57).

Fixpoint all_digits (s : string) : bool :=
  match s with
  | EmptyString => true
  | String c rest => is_digit c && all_digits rest
  end.

Fixpoint parse_digits (acc : Z) (s : string) : Z :=
  match s with
  | EmptyString => acc
  | String c rest => parse_digits (10 * acc + (Z.of_nat (nat_of_ascii c) - 48)) rest
  end.

(** [parseInt(s, 10)] on a string of decimal digits: the integer they
    spell.  (JavaScript rounds it to a double; see [time_tool] for why
    the integer is enough there.) *)
Definition parseInt10 (s : string) : Z := parse_digits 0 s.

(** *** Date (ECMA-262 21.4.1)

    A Date holds a time value: milliseconds since 1970-01-01T00:00:00Z,
    or NaN for an invalid date.  [None] stands for NaN, here and in the
    results of the getters. *)

Definition Date : Type := option Z.

Definition msPerDay : Z := 86400000.
Definition maxTime : Z := 8640000000000000.

(** [new Date(value)] on an integral number: TimeClip. *)
Definition newDate (value : Z) : Date :=
  if Z.abs value <=? maxTime then Some value else None.

(** Year, month (1-12) and day of month of the day number [days] counted
    from 1970-01-01, in the proleptic Gregorian calendar. *)
Definition civil_from_days (days : Z) : Z * Z * Z :=
  let z := days + 719468 in
  let era := z / 146097 in
  let doe := z - era * 146097 in
  let yoe := (doe - doe / 1460 + doe / 36524 - doe / 146096) / 365 in
  let doy := doe - (365 * yoe + yoe / 4 - yoe / 100) in
  let mp := (5 * doy + 2) / 153 in
  let d := doy - (153 * mp + 2) / 5 + 1 in
  let m := if mp <? 10 then mp + 3 else mp - 9 in
  let y := yoe + era * 400 + (if m <=? 2 then 1 else 0) in
  (y, m, d).

Definition getUTCFullYear (d : Date) : option Z :=
  option_map (fun t => fst (fst (civil_from_days (t / msPerDay)))) d.

(** 0 for January, as in JavaScript. *)
Definition getUTCMonth (d : Date) : option Z :=
  option_map (fun t => snd (fst (civil_from_days (t / msPerDay))) - 1) d.

Definition getUTCDate (d : Date) : option Z :=
  option_map (fun t => snd (civil_from_days (t / msPerDay))) d.

Definition getUTCHours (d : Date) : option Z :=
  option_map (fun t => (t / 3600000) mod 24) d.

Definition getUTCMinutes (d : Date) : option Z :=
  option_map (fun t => (t / 60000) mod 60) d.

Definition getUTCSeconds (d : Date) : option Z :=
  option_map (fun t => (t / 1000) mod 60) d.

(** [String(n)] of a getter's result. *)
Definition fieldToString (n : option Z) : string :=
  match n with
  | Some z => intToString z
  | None => "NaN"
  end.

(** *** parseFloat (ECMA-262 19.2.4)

    Skips leading white space, reads the longest prefix that is a
    StrDecimalLiteral and returns the double nearest to it; NaN when
    there is no such prefix. *)

(** The double nearest to [num / den] (ties to even), for positive [num]
    and [den]. *)
Definition round_to_double (num den : Z) : float :=
  let e0 := Z.log2 num - Z.log2 den - 52 in
  let quot e := if 0 <=? e then num / (den * 2 ^ e) else (num * 2 ^ (- e)) / den in
  let e1 := if quot e0 <? 2 ^ 52 then e0 - 1 else e0 in
  let e := Z.max e1 (-1074) in
  let '(n, d) := if 0 <=? e then (num, den * 2 ^ e) else (num * 2 ^ (- e), den) in
  let q := n / d in
  let r := n - q * d in
  let m :=
    match 2 * r ?= d with
    | Lt => q
    | Gt => q + 1
    | Eq => if Z.even q then q else q + 1
    end in
  if 1024 <? e + 53 then infinity
  else Z.ldexp (PrimFloat.of_uint63 (Uint63.of_Z m)) e.

Fixpoint span_digits (s : string) : string * string :=
  match s with
  | String c rest =>
      if is_digit c
      then let '(ds, tl) := span_digits rest in (String c ds, tl)
      else (EmptyString, s)
  | EmptyString => (EmptyString, EmptyString)
  end.

(** Is [b1 b2 b3] the UTF-8 encoding of a three-byte WhiteSpace or
    LineTerminator code point (U+1680, U+2000-200A, U+2028, U+2029,
    U+202F, U+205F, U+3000, U+FEFF)? *)
Definition is_space3 (b1 b2 b3 : nat) : bool :=
  ((b1 =? 225) && (b2 =? 154) && (b3 =? 128)
   || (b1 =? 226) && (b2 =? 128) &&
      ((128 <=? b3) && (b3 <=? 138) || (b3 =? 168) || (b3 =? 169) || (b3 =? 175))
   || (b1 =? 226) && (b2 =? 129) && (b3 =? 159)
   || (b1 =? 227) && (b2 =? 128) && (b3 =? 128)
   || (b1 =? 239) && (b2 =? 187) && (b3 =? 191))%nat.

Fixpoint trim_start (fuel : nat) (s : string) : string :=
  match fuel with
  | O => s
  | S f =>
      match s with
      | String c1 rest =>
          let b1 := nat_of_ascii c1 in
          if ((9 <=? b1) && (b1 <=? 13) || (b1 =? 32))%nat then trim_start f rest
          else
            match rest with
            | String c2 rest2 =>
                if ((b1 =? 194) && (nat_of_ascii c2 =? 160))%nat
                then trim_start f rest2
                else
                  match rest2 with
                  | String c3 rest3 =>
                      if is_space3 b1 (nat_of_ascii c2) (nat_of_ascii c3)
                      then trim_start f rest3
                      else s
                  | EmptyString => s
                  end
            | EmptyString => s
            end
      | EmptyString => s
      end
  end.

(** The value of an ExponentPart at the head of [s], 0 when there is none. *)
Definition exponent_part (s : string) : Z :=
  match s with
  | String c rest =>
      if ((c =? "e") || (c =? "E"))%char then
        let '(neg, body) :=
          match rest with
          | String "+" r => (false, r)
          | String "-" r => (true, r)
          | _ => (false, rest)
          end in
        match fst (span_digits body) with
        | EmptyString => 0
        | ds => if neg then - parse_digits 0 ds else parse_digits 0 ds
        end
      else 0
  | EmptyString => 0
  end.

Definition parseFloat (input : string) : float :=
  let s := trim_start (String.length input) input in
  let '(neg, body) :=
    match s with
    | String "+" r => (false, r)
    | String "-" r => (true, r)
    | _ => (false, s)
    end in
  let signed (x : float) := if neg then (- x)%float else x in
  if prefix "Infinity" body then signed infinity
  else
    let '(int_ds, after_int) := span_digits body in
    let '(frac_ds, after_frac) :=
      match after_int with
      | String "." r => span_digits r
      | _ => (EmptyString, after_int)
      end in
    match int_ds ++ frac_ds with
    | EmptyString => nan
    | ds =>
        let N := parse_digits 0 ds in
        let E := exponent_part after_frac - Z.of_nat (String.length frac_ds) in
        if N =? 0 then signed 0%float
        else
          let order := Z.of_nat (String.length (intToString N)) + E in
          if 400 <? order then signed infinity
          else if order <? -400 then signed 0%float
          else signed (if 0 <=? E
                       then round_to_double (N * 10 ^ E) 1
                       else round_to_double N (10 ^ (- E)))
    end.

(** *** encodeURIComponent (ECMA-262 19.2.6.4)

    Every byte of the UTF-8 encoding is escaped as [%XX] except the
    unreserved characters [A-Z a-z 0-9 - _ . ! ~ * ' ( )].  That is the
    built-in's result on a well-formed string.  On a string that holds a
    lone surrogate the built-in returns nothing: it throws a URIError
    ("URI malformed"). *)

(** [s.isWellFormed()].  A lone surrogate (a code unit from D800 to DFFF
    that is not half of a pair) has no UTF-8 encoding; in a byte sequence
    it is written in the generalized form of that encoding, the byte ED
    followed by a byte from A0 to BF.  Well-formed text never has that
    pair of bytes: after ED its encoding goes on with 80 to 9F. *)
Fixpoint hasLoneSurrogate (s : string) : bool :=
  match s with
  | String c1 rest =>
      match rest with
      | String c2 _ =>
          ((nat_of_ascii c1 =? 237) && (160 <=? nat_of_ascii c2) &&
           (nat_of_ascii c2 <=? 191))%nat
          || hasLoneSurrogate rest
      | EmptyString => false
      end
  | EmptyString => false
  end.

Definition isWellFormed (s : string) : bool := negb (hasLoneSurrogate s).

Definition hex_digit (n : nat) : ascii :=
  ascii_of_nat (if (n <? 10)%nat then 48 + n else 55 + n).

Definition is_unreserved (c : ascii) : bool :=
  let n := nat_of_ascii c in
  ((65 <=? n) && (n <=? 90) || (97 <=? n) && (n <=? 122) || (48 <=? n) && (n <=? 57)
   || (n =? 45) || (n =? 95) || (n =? 46) || (n =? 33) || (n =? 126)
   || (n =? 42) || (n =? 39) || (n =? 40) || (n =? 41))%nat.

Fixpoint encodeURIComponent (s : string) : string :=
  match s with
  | EmptyString => EmptyString
  | String c rest =>
      if is_unreserved c then String c (encodeURIComponent rest)
      else
        let n := nat_of_ascii c in
        String "%" (String (hex_digit (n / 16)) (String (hex_digit (n mod 16))
          (encodeURIComponent rest)))
  end.

(** The double quote character. *)
Definition dquote : string := String (ascii_of_nat 34) EmptyString.

(** The line feed ['\n']. *)
Definition nl : string := String (ascii_of_nat 10) EmptyString.

(** *** String.prototype.toLowerCase

    The ASCII letters are mapped and every other byte is kept.  On
    non-ASCII text JavaScript lowercases more, but no code point outside
    ASCII lowercases to a string of the letters [a-j], [l-z] and [_],
    which are the only ones in the keys the handlers look up (the one
    ASCII-bound special case, U+212A, gives [k]); so a lookup by the
    lowercased key finds the same entry either way. *)

Definition lower_char (c : ascii) : ascii :=
  let n := nat_of_ascii c in
  if ((65 <=? n) && (n <=? 90))%nat then ascii_of_nat (n + 32) else c.

Fixpoint toLowerCase (s : string) : string :=
  match s with
  | EmptyString => EmptyString
  | String c rest => String (lower_char c) (toLowerCase rest)
  end.

(** *** String.prototype.replace with a string pattern (ECMA-262 22.1.3.19)

    The first occurrence of the pattern is replaced.  The replacement is
    a template (GetSubstitution, 22.1.3.19.1): [$$] stands for a dollar
    sign, [$&] for the matched text, [$`] for the text before the match
    and [$'] for the text after it.  With a string pattern there are no
    captures, so any other [$] stands for itself. *)

Fixpoint split_first (needle s : string) : option (string * string) :=
  if prefix needle s then
    Some (EmptyString,
          substring (String.length needle) (String.length s - String.length needle) s)
  else
    match s with
    | EmptyString => None
    | String c rest =>
        match split_first needle rest with
        | Some (before, after) => Some (String c before, after)
        | None => None
        end
    end.

Fixpoint getSubstitution (matched before after template : string) : string :=
  match template with
  | EmptyString => EmptyString
  | String c rest =>
      if (c =? "$")%char then
        match rest with
        | String c2 rest2 =>
            if (c2 =? "$")%char then
              String "$" (getSubstitution matched before after rest2)
            else if (c2 =? "&")%char then
              matched ++ getSubstitution matched before after rest2
            else if (c2 =? "`")%char then
              before ++ getSubstitution matched before after rest2
            else if (c2 =? "'")%char then
              after ++ getSubstitution matched before after rest2
            else String "$" (getSubstitution matched before after rest)
        | EmptyString => String "$" EmptyString
        end
      else String c (getSubstitution matched before after rest)
  end.

Definition replace (s pattern replacement : string) : string :=
  match split_first pattern s with
  | Some (before, after) =>
      before ++ getSubstitution pattern before after replacement ++ after
  | None => s
  end.

(** *** Property lookup on an object literal

    [o[key]] on [const o: Record<string, string> = { ... }] first looks at
    the object's own properties and then at [Object.prototype], which
    every object literal inherits from. *)

Inductive PropertyValue : Type :=
| StringValue (s : string)
| BuiltinFunction (name : string)   (* a function of [Object.prototype] *)
| ObjectPrototype.                  (* [Object.prototype], through [__proto__] *)

(** The methods of [Object.prototype], by property name. *)
Definition objectPrototypeMethods : list string :=
  [ "__defineGetter__"; "__defineSetter__"; "hasOwnProperty";
    "__lookupGetter__"; "__lookupSetter__"; "isPrototypeOf";
    "propertyIsEnumerable"; "toString"; "valueOf"; "toLocaleString" ].

Fixpoint assoc (key : string) (entries : list (string * string)) : option string :=
  match entries with
  | [] => None
  | (k, v) :: rest => if (k =? key)%string then Some v else assoc key rest
  end.

Definition getProperty (own : list (string * string)) (key : string)
  : option PropertyValue :=
  match assoc key own with
  | Some v => Some (StringValue v)
  | None =>
      if (key =? "constructor")%string then Some (BuiltinFunction "Object")
      else if (key =? "__proto__")%string then Some ObjectPrototype
      else if existsb (String.eqb key) objectPrototypeMethods
      then Some (BuiltinFunction key)
      else None
  end.

(** ToBoolean of a looked-up property; [None] is [undefined]. *)
Definition truthy (v : option PropertyValue) : bool :=
  match v with
  | Some (StringValue EmptyString) => false
  | Some _ => true
  | None => false
  end.

(** ToString, as [+=] on a string applies it. *)
Definition propertyToString (v : option PropertyValue) : string :=
  match v with
  | Some (StringValue s) => s
  | Some (BuiltinFunction name) => "function " ++ name ++ "() { [native code] }"
  | Some ObjectPrototype => "[object Object]"
  | None => "undefined"
  end.

(** *** Buffer.from(bytes).toString('base64') *)

Definition base64_alphabet : string :=
  "ABCDEFGHIJKLMNOPQRSTUVWXYZabcdefghijklmnopqrstuvwxyz0123456789+/".

Definition base64_char (n : nat) : ascii :=
  match String.get n base64_alphabet with
  | Some c => c
  | None => "="%char
  end.

Fixpoint base64 (bytes : string) : string :=
  match bytes with
  | EmptyString => EmptyString
  | String a EmptyString =>
      let x := nat_of_ascii a in
      String (base64_char (x / 4)) (String (base64_char (x mod 4 * 16)) "==")
  | String a (String b EmptyString) =>
      let x := nat_of_ascii a in
      let y := nat_of_ascii b in
      String (base64_char (x / 4))
        (String (base64_char (x mod 4 * 16 + y / 16))
           (String (base64_char (y mod 16 * 4)) "="))
  | String a (String b (String c rest)) =>
      let x := nat_of_ascii a in
      let y := nat_of_ascii b in
      let z := nat_of_ascii c in
      String (base64_char (x / 4))
        (String (base64_char (x mod 4 * 16 + y / 16))
           (String (base64_char (y mod 16 * 4 + z / 64))
              (String (base64_char (z mod 64)) (base64 rest))))
  end%nat.

(** *** Date.prototype.toISOString of a valid date *)

Definition padZeros (width : nat) (z : Z) : string :=
  let ds := intToString z in
  repeat_char "0" (width - String.length ds) ++ ds.

Definition toISOString (t : Z) : string :=
  let '(y, m, d) := civil_from_days (t / msPerDay) in
  let year :=
    if (0 <=? y) && (y <=? 9999) then padZeros 4 y
    else (if y <? 0 then "-" else "+") ++ padZeros 6 (Z.abs y) in
  year ++ "-" ++ padZeros 2 m ++ "-" ++ padZeros 2 d ++ "T" ++
  padZeros 2 ((t / 3600000) mod 24) ++ ":" ++ padZeros 2 ((t / 60000) mod 60) ++ ":" ++
  padZeros 2 ((t / 1000) mod 60) ++ "." ++ padZeros 3 (t mod 1000) ++ "Z".

(** *** JSON.stringify(value, null, 2) (ECMA-262 25.5.2) *)

#[local] Unset Elimination Schemes.
Inductive Json : Type :=
| JNull
| JBool (b : bool)
| JNumber (x : float)
| JString (s : string)
| JArray (items : list Json)
| JObject (members : list (string * Json)).
#[local] Set Elimination Schemes.

(** QuoteJSONString, without the enclosing quotes. *)
Fixpoint escapeJSON (s : string) : string :=
  match s with
  | EmptyString => EmptyString
  | String c rest =>
      let n := nat_of_ascii c in
      (if (n =? 34)%nat then String "\" dquote
       else if (n =? 92)%nat then "\\"
       else if (n =? 8)%nat then "\b"
       else if (n =? 9)%nat then "\t"
       else if (n =? 10)%nat then "\n"
       else if (n =? 12)%nat then "\f"
       else if (n =? 13)%nat then "\r"
       else if (n <? 32)%nat then
         "\u00" ++ String (if (n <? 16)%nat then "0" else "1")
                     (String (ascii_of_nat (let h := (n mod 16)%nat in
                                            if (h <? 10)%nat then 48 + h else 87 + h))
                             EmptyString)
       else String c EmptyString) ++ escapeJSON rest
  end.

Definition quoteJSON (s : string) : string := dquote ++ escapeJSON s ++ dquote.

Definition is_finite (x : float) : bool :=
  match Prim2SF x with
  | S754_nan | S754_infinity _ => false
  | _ => true
  end.

(** [stringify indent v]: the text of [v] when it stands at indentation
    [indent]; the gap is two spaces. *)
Fixpoint stringify (indent : string) (v : Json) : string :=
  match v with
  | JNull => "null"
  | JBool b => if b then "true" else "false"
  | JNumber x => if is_finite x then numToString x else "null"
  | JString s => quoteJSON s
  | JArray [] => "[]"
  | JArray items =>
      let inner := indent ++ "  " in
      "[" ++ nl ++
      (fix elements (l : list Json) : string :=
         match l with
         | [] => EmptyString
         | [x] => inner ++ stringify inner x
         | x :: more => inner ++ stringify inner x ++ "," ++ nl ++ elements more
         end) items ++
      nl ++ indent ++ "]"
  | JObject [] => "{}"
  | JObject members =>
      let inner := indent ++ "  " in
      "{" ++ nl ++
      (fix properties (l : list (string * Json)) : string :=
         match l with
         | [] => EmptyString
         | [(k, x)] => inner ++ quoteJSON k ++ ": " ++ stringify inner x
         | (k, x) :: more =>
             inner ++ quoteJSON k ++ ": " ++ stringify inner x ++ "," ++ nl ++
             properties more
         end) members ++
      nl ++ indent ++ "}"
  end.

End JS.

(** ** Responses *)

(** What an [async] handler's promise settles to. *)
Inductive Thrown : Type :=
| ErrorObject (message : string)   (* [new Error(message)], or a subclass *)
| OtherValue (asString : string).  (* anything else; [String(v)] is kept *)

Inductive Outcome (A : Type) : Type :=
| Resolved (value : A)
| Rejected (reason : Thrown).
Arguments Resolved {A} value.
Arguments Rejected {A} reason.

(** [{ type: 'text', text }] *)
Record ContentBlock : Type := { type : string; text : string }.

Module Structured.
(** [structuredContent: { content: [...] }] *)
Record t : Type := { content : list ContentBlock }.
End Structured.

(** [{ content: [...], structuredContent: { content: [...] } }] *)
Record ToolResult : Type := {
  content : list ContentBlock;
  structuredContent : Structured.t
}.

(** ** greet (index.ts 43-65) *)

Definition greet (name language : string) : Outcome ToolResult :=
  let greeting :=
    if (language =? "ko")%string
    then "안녕하세요, " ++ name ++ "님!"
    else "Hey there, " ++ name ++ "! 👋 Nice to meet you!" in
  Resolved {|
    content := [ {| type := "text"; text := greeting |} ];
    structuredContent :=
      {| Structured.content := [ {| type := "text"; text := greeting |} ] |}
  |}.

(** ** calculator (index.ts 90-135)

    [operator] is the runtime string; the input schema admits the four
    members of [operators] only, which leaves the [default] arm of the
    [switch] without a caller. *)

Definition operators : list string := ["+"; "-"; "*"; "/"].

Definition calculator (num1 num2 : float) (operator : string)
  : Outcome ToolResult :=
  let resultText :=
    if (operator =? "+")%string then
      let result := (num1 + num2)%float in
      JS.numToString num1 ++ " + " ++ JS.numToString num2 ++ " = " ++
      JS.numToString result
    else if (operator =? "-")%string then
      let result := (num1 - num2)%float in
      JS.numToString num1 ++ " - " ++ JS.numToString num2 ++ " = " ++
      JS.numToString result
    else if (operator =? "*")%string then
      let result := (num1 * num2)%float in
      JS.numToString num1 ++ " × " ++ JS.numToString num2 ++ " = " ++
      JS.numToString result
    else if (operator =? "/")%string then
      if (num2 =? 0)%float then
        "오류: 0으로 나눌 수 없습니다."
      else
        let result := (num1 / num2)%float in
        JS.numToString num1 ++ " ÷ " ++ JS.numToString num2 ++ " = " ++
        JS.numToString result
    else
      "오류: 지원하지 않는 연산자입니다." in
  Resolved {|
    content := [ {| type := "text"; text := resultText |} ];
    structuredContent :=
      {| Structured.content := [ {| type := "text"; text := resultText |} ] |}
  |}.

(** ** time (index.ts 138-219)

    [now] is the time value of [new Date()] and [tzOffsetMinutes] what
    [now.getTimezoneOffset()] returns in the process's time zone (UTC minus
    local time, in minutes: -540 in Asia/Seoul, 0 in UTC, 300 in
    America/New_York in winter).

    The arithmetic is carried out on integers.  On doubles it is the same
    as long as every intermediate result stays below 2^53; beyond that the
    target lies outside the Date range for every [now] within eleven
    thousand years of 1970, and both computations give an invalid date. *)

(** The schema's [/^UTC[+-]\d+$/] (index.ts 145). *)
Definition timezone_schema (timezone : string) : bool :=
  match timezone with
  | String "U" (String "T" (String "C" (String sg ds))) =>
      ((sg =? "+")%char || (sg =? "-")%char) &&
      match ds with
      | EmptyString => false
      | String _ _ => JS.all_digits ds
      end
  | _ => false
  end.

(** [timezone.match(/^UTC([+-])(\d+)$/)] (index.ts 161): the two captures,
    or [None] for [null]. *)
Definition timezone_match (timezone : string) : option (ascii * string) :=
  match timezone with
  | String "U" (String "T" (String "C" (String sg (String d ds)))) =>
      if ((sg =? "+")%char || (sg =? "-")%char) && JS.all_digits (String d ds)
      then Some (sg, String d ds)
      else None
  | _ => None
  end.

Definition time_tool (now tzOffsetMinutes : Z) (timezone : string)
  : Outcome ToolResult :=
  match timezone_match timezone with
  | None =>
      Resolved {|
        content :=
          [ {| type := "text";
               text := "오류: 잘못된 시간대 형식입니다. UTC+숫자 또는 UTC-숫자 형식을 사용해주세요." |} ];
        structuredContent :=
          {| Structured.content :=
               [ {| type := "text";
                    text := "오류: 잘못된 시간대 형식입니다. UTC+숫자 또는 UTC-숫자 형식을 사용해주세요." |} ] |}
      |}
  | Some (match1, match2) =>
      let sign := if (match1 =? "+")%char then 1 else -1 in
      let offsetHours := JS.parseInt10 match2 in
      let utcTime := now + tzOffsetMinutes * 60 * 1000 in
      let targetTime := JS.newDate (utcTime + offsetHours * 60 * 60 * 1000 * sign) in
      let year := JS.getUTCFullYear targetTime in
      let month :=
        JS.padStart2 (JS.fieldToString
                        (option_map (fun m => m + 1) (JS.getUTCMonth targetTime))) in
      let day := JS.padStart2 (JS.fieldToString (JS.getUTCDate targetTime)) in
      let hours := JS.padStart2 (JS.fieldToString (JS.getUTCHours targetTime)) in
      let minutes := JS.padStart2 (JS.fieldToString (JS.getUTCMinutes targetTime)) in
      let seconds := JS.padStart2 (JS.fieldToString (JS.getUTCSeconds targetTime)) in
      let timeString :=
        JS.fieldToString year ++ "-" ++ month ++ "-" ++ day ++ " " ++
        hours ++ ":" ++ minutes ++ ":" ++ seconds in
      let resultText := timezone ++ " 시간대의 현재 시각: " ++ timeString in
      Resolved {|
        content := [ {| type := "text"; text := resultText |} ];
        structuredContent :=
          {| Structured.content := [ {| type := "text"; text := resultText |} ] |}
      |}
  end.

(** ** [try { ... } catch (error) { ... }]

    Inside a [try] block the statements run in sequence until one of them
    throws; [bind] is that sequencing, and the [catch] clause is a [match]
    on the block's outcome. *)

Definition bind {A B : Type} (step : Outcome A) (rest : A -> Outcome B) : Outcome B :=
  match step with
  | Resolved a => rest a
  | Rejected e => Rejected e
  end.

Notation "x <- step ;; rest" := (bind step (fun x => rest))
  (at level 61, step at next level, right associativity).

(** [error instanceof Error ? error.message : '알 수 없는 오류가 발생했습니다.'] *)
Definition errorMessageOf (error : Thrown) : string :=
  match error with
  | ErrorObject message => message
  | OtherValue _ => "알 수 없는 오류가 발생했습니다."
  end.

(** ** The HTTP client

    [fetch(url, { headers })] resolves with a response or rejects (no
    network, DNS failure, ...).  [response.json()] resolves with the parsed
    body or rejects when the body is not JSON.  The body is typed [Body]:
    each handler reads it at the shape its service documents. *)

Record Response (Body : Type) : Type := {
  ok : bool;
  status : Z;
  statusText : string;
  json : Outcome Body
}.
Arguments ok {Body} _.
Arguments status {Body} _.
Arguments statusText {Body} _.
Arguments json {Body} _.

Definition Fetch (Body : Type) : Type :=
  string -> list (string * string) -> Outcome (Response Body).

(** ** geocode (index.ts 241-320)

    The search service answers with an array of places, each an object
    with the string fields [lat], [lon] and [display_name]; any of them may
    be missing ([None] is [undefined]). *)

Record Place : Type := {
  lat : option string;
  lon : option string;
  display_name : option string
}.

Inductive GeocodeData : Type :=
| NotAnArray                      (* [Array.isArray(data)] is false *)
| Places (results : list Place).

(** [String(v)] of a property that may be missing. *)
Definition stringOrUndefined (v : option string) : string :=
  match v with
  | Some s => s
  | None => "undefined"
  end.

(** [v || fallback] on such a property: the empty string is falsy too. *)
Definition orElse (v : option string) (fallback : string) : string :=
  match v with
  | Some (String c s) => String c s
  | Some EmptyString => fallback
  | None => fallback
  end.

Definition geocode (fetch : Fetch GeocodeData) (query : string)
  : Outcome ToolResult :=
  let attempt : Outcome ToolResult :=
    let encodedQuery := JS.encodeURIComponent query in
    let url :=
      "https://nominatim.openstreetmap.org/search?q=" ++ encodedQuery ++
      "&format=jsonv2&limit=1&addressdetails=1" in
    response <- fetch url [("User-Agent", "MCP-Geocode-Tool/1.0")] ;;
    if negb (ok response) then
      Rejected (ErrorObject ("API 요청 실패: " ++ JS.intToString (status response) ++
                             " " ++ statusText response))
    else
      data <- json response ;;
      match data with
      | NotAnArray | Places [] =>
          Resolved {|
            content :=
              [ {| type := "text";
                   text := JS.dquote ++ query ++ JS.dquote ++
                           "에 대한 검색 결과를 찾을 수 없습니다." |} ];
            structuredContent :=
              {| Structured.content :=
                   [ {| type := "text";
                        text := JS.dquote ++ query ++ JS.dquote ++
                                "에 대한 검색 결과를 찾을 수 없습니다." |} ] |}
          |}
      | Places (result :: _) =>
          let lat := JS.parseFloat (stringOrUndefined (lat result)) in
          let lon := JS.parseFloat (stringOrUndefined (lon result)) in
          let displayName := orElse (display_name result) query in
          let resultText :=
            "위치: " ++ displayName ++ JS.nl ++
            "위도: " ++ JS.numToString lat ++ JS.nl ++
            "경도: " ++ JS.numToString lon in
          Resolved {|
            content := [ {| type := "text"; text := resultText |} ];
            structuredContent :=
              {| Structured.content := [ {| type := "text"; text := resultText |} ] |}
          |}
      end in
  match attempt with
  | Resolved response => Resolved response
  | Rejected error =>
      let errorMessage := errorMessageOf error in
      Resolved {|
        content := [ {| type := "text"; text := "오류: " ++ errorMessage |} ];
        structuredContent :=
          {| Structured.content :=
               [ {| type := "text"; text := "오류: " ++ errorMessage |} ] |}
      |}
  end.

(** ** get-weather (index.ts 358-480) *)

(** [getWeatherDescription] (index.ts 383-415).  [weatherCodes] is an
    object literal with numeric keys, so its property names are the
    strings ["0"], ["1"], ..., ["99"].  [weatherCodes[code]] turns the
    number [code] into a property name with [String(code)] and looks it
    up, among the table's own properties first and then in
    [Object.prototype]; [||] falls through to the second operand when
    nothing is found or the text found is empty; the template literal
    prints the number with [String(code)] again. *)

Definition weatherCodes : list (string * string) :=
  [ ("0", "맑음");
    ("1", "대체로 맑음");
    ("2", "부분적으로 흐림");
    ("3", "흐림");
    ("45", "안개");
    ("48", "서리 안개");
    ("51", "약한 이슬비");
    ("53", "중간 이슬비");
    ("55", "강한 이슬비");
    ("56", "약한 동결 이슬비");
    ("57", "강한 동결 이슬비");
    ("61", "약한 비");
    ("63", "중간 비");
    ("65", "강한 비");
    ("66", "약한 동결 비");
    ("67", "강한 동결 비");
    ("71", "약한 눈");
    ("73", "중간 눈");
    ("75", "강한 눈");
    ("77", "눈알");
    ("80", "약한 소나기");
    ("81", "중간 소나기");
    ("82", "강한 소나기");
    ("85", "약한 눈 소나기");
    ("86", "강한 눈 소나기");
    ("95", "뇌우");
    ("96", "우박을 동반한 뇌우");
    ("99", "강한 우박을 동반한 뇌우") ].

Definition getWeatherDescription (code : float) : string :=
  let found := JS.getProperty weatherCodes (JS.numToString code) in
  if JS.truthy found then JS.propertyToString found
  else "날씨 코드: " ++ JS.numToString code.

(** The forecast service's reply.  An entry of a daily array is a number
    or [null] ([None]); reading past the end of an array gives
    [undefined], the outer [None] of [nth_error]. *)

Record CurrentWeather : Type := {
  temperature : float;
  weathercode : float;
  windspeed : float;
  winddirection : float
}.

Module Daily.
Record t : Type := {
  time : option (list string);
  temperature_2m_max : option (list (option float));
  temperature_2m_min : option (list (option float));
  precipitation_sum : option (list (option float));
  weathercode : option (list (option float))
}.
End Daily.

Record Forecast : Type := {
  current_weather : option CurrentWeather;
  daily : option Daily.t
}.

(** [String(a[i])] of a numeric array. *)
Definition cellToString (cell : option (option float)) : string :=
  match cell with
  | Some (Some x) => JS.numToString x
  | Some None => "null"
  | None => "undefined"
  end.

(** [a[i] > 0]: [null] is 0 and [undefined] is NaN in a comparison. *)
Definition cellPositive (cell : option (option float)) : bool :=
  match cell with
  | Some (Some x) => (0 <? x)%float
  | _ => false
  end.

(** [getWeatherDescription(a[i])]: neither ["null"] nor ["undefined"] is a
    key of the table. *)
Definition describeCell (cell : option (option float)) : string :=
  match cell with
  | Some (Some code) => getWeatherDescription code
  | Some None => "날씨 코드: null"
  | None => "날씨 코드: undefined"
  end.

Section Weather.

(** [Date.parse]: the time value a date string denotes, [None] for NaN;
    and the offset of the process's local time from UTC at an instant, in
    milliseconds. *)
Variable dateParse : string -> option Z.
Variable localTZA : Z -> Z.

(** [`${date.getMonth() + 1}/${date.getDate()}`] for
    [date = new Date(timeString)]. *)
Definition localMonthDay (timeString : string) : string :=
  let date : JS.Date :=
    match dateParse timeString with
    | Some t => JS.newDate t
    | None => None
    end in
  let localDate := option_map (fun t => t + localTZA t) date in
  JS.fieldToString (option_map (fun m => m + 1) (JS.getUTCMonth localDate)) ++ "/" ++
  JS.fieldToString (JS.getUTCDate localDate).

(** One turn of the loop at index [i] (index.ts 434-441): the text it
    appends. *)
Definition dailyEntry (times : list string)
    (maxTemps minTemps precipitations : list (option float))
    (codes : list (option float)) (i : nat) : string :=
  let timeText := nth i times "undefined" in
  let dateStr := localMonthDay timeText in
  JS.nl ++ dateStr ++ " (" ++ timeText ++ ")" ++ JS.nl ++
  "  날씨: " ++ describeCell (nth_error codes i) ++ JS.nl ++
  "  최고: " ++ cellToString (nth_error maxTemps i) ++ "°C / 최저: " ++
    cellToString (nth_error minTemps i) ++ "°C" ++ JS.nl ++
  (if cellPositive (nth_error precipitations i)
   then "  강수량: " ++ cellToString (nth_error precipitations i) ++ " mm" ++ JS.nl
   else EmptyString).

Definition get_weather (fetch : Fetch (option Forecast))
    (latitude longitude : float) (forecastDays : Z) : Outcome ToolResult :=
  let attempt : Outcome ToolResult :=
    let url :=
      "https://api.open-meteo.com/v1/forecast?latitude=" ++ JS.numToString latitude ++
      "&longitude=" ++ JS.numToString longitude ++
      "&current_weather=true&hourly=temperature_2m,precipitation,weathercode" ++
      "&daily=temperature_2m_max,temperature_2m_min,precipitation_sum,weathercode" ++
      "&forecast_days=" ++ JS.intToString forecastDays ++ "&timezone=auto" in
    response <- fetch url [] ;;
    if negb (ok response) then
      Rejected (ErrorObject ("API 요청 실패: " ++ JS.intToString (status response) ++
                             " " ++ statusText response))
    else
      data <- json response ;;
      match data with
      | None => Rejected (ErrorObject "날씨 데이터를 가져올 수 없습니다.")
      | Some data =>
          match current_weather data with
          | None => Rejected (ErrorObject "날씨 데이터를 가져올 수 없습니다.")
          | Some current =>
              let currentTemp := temperature current in
              let currentWeatherCode := weathercode current in
              let currentWindSpeed := windspeed current in
              let currentWindDirection := winddirection current in
              let resultText :=
                "=== 현재 날씨 ===" ++ JS.nl ++
                "온도: " ++ JS.numToString currentTemp ++ "°C" ++ JS.nl ++
                "날씨: " ++ getWeatherDescription currentWeatherCode ++ JS.nl ++
                "풍속: " ++ JS.numToString currentWindSpeed ++ " km/h" ++ JS.nl ++
                "풍향: " ++ JS.numToString currentWindDirection ++ "°" ++ JS.nl ++ JS.nl in
              let resultText :=
                match daily data with
                | Some daily =>
                    match Daily.time daily with
                    | Some times =>
                        let maxTemps :=
                          match Daily.temperature_2m_max daily with Some a => a | None => [] end in
                        let minTemps :=
                          match Daily.temperature_2m_min daily with Some a => a | None => [] end in
                        let precipitations :=
                          match Daily.precipitation_sum daily with Some a => a | None => [] end in
                        let weatherCodes :=
                          match Daily.weathercode daily with Some a => a | None => [] end in
                        let turns :=
                          Z.to_nat (Z.min (Z.of_nat (List.length times)) forecastDays) in
                        fold_left
                          (fun text i =>
                             text ++ dailyEntry times maxTemps minTemps precipitations
                                                weatherCodes i)
                          (seq 0 turns)
                          (resultText ++ "=== " ++ JS.intToString forecastDays ++
                           "일 예보 ===" ++ JS.nl)
                    | None => resultText
                    end
                | None => resultText
                end in
              Resolved {|
                content := [ {| type := "text"; text := resultText |} ];
                structuredContent :=
                  {| Structured.content := [ {| type := "text"; text := resultText |} ] |}
              |}
          end
      end in
  match attempt with
  | Resolved response => Resolved response
  | Rejected error =>
      let errorMessage := errorMessageOf error in
      Resolved {|
        content := [ {| type := "text"; text := "오류: " ++ errorMessage |} ];
        structuredContent :=
          {| Structured.content :=
               [ {| type := "text"; text := "오류: " ++ errorMessage |} ] |}
      |}
  end.

End Weather.

(** ** code-review (index.ts 484-579) *)

Definition codeReviewPromptTemplate : string :=
"다음 코드를 리뷰해주세요. 다음 항목들을 중점적으로 검토해주세요:

1. **코드 품질**
   - 가독성과 유지보수성
   - 네이밍 컨벤션
   - 코드 구조와 조직화

2. **성능**
   - 잠재적인 성능 병목
   - 최적화 가능한 부분
   - 메모리 사용 효율성

3. **보안**
   - 보안 취약점
   - 입력 검증
   - 에러 처리

4. **모범 사례**
   - 언어별 베스트 프랙티스 준수 여부
   - 디자인 패턴 적용
   - 테스트 가능성

5. **개선 제안**
   - 구체적인 개선 방안
   - 리팩토링 제안
   - 대안 코드 예시

**리뷰할 코드:**
```
{code}
```

위 코드에 대한 상세한 리뷰를 제공해주세요.".

Definition languageGuidelines : list (string * string) :=
  [ ("typescript",
     JS.nl ++ JS.nl ++ "**TypeScript 특화 검토 사항:**" ++ JS.nl ++
     "- 타입 안정성과 타입 추론" ++ JS.nl ++
     "- 제네릭 사용의 적절성" ++ JS.nl ++
     "- 인터페이스와 타입 정의의 명확성");
    ("javascript",
     JS.nl ++ JS.nl ++ "**JavaScript 특화 검토 사항:**" ++ JS.nl ++
     "- ES6+ 기능 활용" ++ JS.nl ++
     "- 비동기 처리 (Promise, async/await)" ++ JS.nl ++
     "- 스코프와 클로저 사용");
    ("python",
     JS.nl ++ JS.nl ++ "**Python 특화 검토 사항:**" ++ JS.nl ++
     "- PEP 8 스타일 가이드 준수" ++ JS.nl ++
     "- 리스트 컴프리헨션 활용" ++ JS.nl ++
     "- 예외 처리와 컨텍스트 매니저 사용");
    ("java",
     JS.nl ++ JS.nl ++ "**Java 특화 검토 사항:**" ++ JS.nl ++
     "- 객체지향 설계 원칙" ++ JS.nl ++
     "- 예외 처리 전략" ++ JS.nl ++
     "- 컬렉션 프레임워크 활용");
    ("go",
     JS.nl ++ JS.nl ++ "**Go 특화 검토 사항:**" ++ JS.nl ++
     "- 에러 처리 패턴" ++ JS.nl ++
     "- 고루틴과 채널 사용" ++ JS.nl ++
     "- 인터페이스 설계") ].

Definition focusGuidelines : list (string * string) :=
  [ ("performance",
     JS.nl ++ JS.nl ++ "**성능 최적화 집중 검토:**" ++ JS.nl ++
     "- 알고리즘 시간 복잡도 분석" ++ JS.nl ++
     "- 불필요한 반복문이나 중첩 루프" ++ JS.nl ++
     "- 캐싱 가능한 연산" ++ JS.nl ++
     "- 데이터베이스 쿼리 최적화");
    ("security",
     JS.nl ++ JS.nl ++ "**보안 집중 검토:**" ++ JS.nl ++
     "- SQL 인젝션 방지" ++ JS.nl ++
     "- XSS 공격 방지" ++ JS.nl ++
     "- 인증 및 권한 검증" ++ JS.nl ++
     "- 민감 정보 노출 방지");
    ("readability",
     JS.nl ++ JS.nl ++ "**가독성 집중 검토:**" ++ JS.nl ++
     "- 변수와 함수명의 명확성" ++ JS.nl ++
     "- 주석의 적절성" ++ JS.nl ++
     "- 코드 길이와 복잡도" ++ JS.nl ++
     "- 일관된 코딩 스타일") ].

Module Message.
(** [{ role, content: { type, text } }] *)
Record t : Type := { role : string; content : ContentBlock }.
End Message.

Record PromptResult : Type := { messages : list Message.t }.

(** [args.language || ''] and [args.focus || '']: a missing argument and an
    empty one are the same to the generator. *)
Definition argOrEmpty (arg : option string) : string :=
  match arg with
  | Some s => s
  | None => EmptyString
  end.

(** [if (key && table[key.toLowerCase()]) { prompt += table[key.toLowerCase()] }] *)
Definition appendGuideline (table : list (string * string)) (key prompt : string)
  : string :=
  match key with
  | EmptyString => prompt
  | String _ _ =>
      if JS.truthy (JS.getProperty table (JS.toLowerCase key))
      then prompt ++ JS.propertyToString (JS.getProperty table (JS.toLowerCase key))
      else prompt
  end.

Definition code_review (code : string) (language focus : option string)
  : Outcome PromptResult :=
  let language := argOrEmpty language in
  let focus := argOrEmpty focus in
  let prompt := JS.replace codeReviewPromptTemplate "{code}" code in
  let prompt := appendGuideline languageGuidelines language prompt in
  let prompt := appendGuideline focusGuidelines focus prompt in
  Resolved {|
    messages :=
      [ {| Message.role := "user";
           Message.content := {| type := "text"; text := prompt |} |} ]
  |}.

(** ** generate-image (index.ts 582-677)

    [HF_TOKEN] is [process.env.HF_TOKEN].  [textToImage token prompt] is
    the call [hfClient.textToImage({ model, inputs: prompt, parameters })]
    on a client built with [token]; it resolves with the bytes of the image
    (of the Blob, or of the value wrapped into one) or rejects. *)

Definition blobToBase64 (blob : string) : Outcome string :=
  let buffer := blob in
  let base64 := JS.base64 buffer in
  Resolved base64.

Definition generate_image (HF_TOKEN : option string)
    (textToImage : string -> string -> Outcome string) (prompt : string)
  : Outcome ToolResult :=
  let attempt : Outcome ToolResult :=
    match HF_TOKEN with
    | None | Some EmptyString =>
        Rejected (ErrorObject "HF_TOKEN 환경 변수가 설정되지 않았습니다.")
    | Some token =>
        imageBlob <-
          match textToImage token prompt with
          | Resolved result => Resolved result
          | Rejected apiError =>
              let apiErrorMessage :=
                match apiError with
                | ErrorObject message => message
                | OtherValue asString => asString
                end in
              Rejected (ErrorObject
                ("Hugging Face API 호출 실패: " ++ apiErrorMessage ++
                 ". HF_TOKEN이 올바르게 설정되어 있는지 확인해주세요."))
          end ;;
        base64Data <- blobToBase64 imageBlob ;;
        let dataUri := "data:image/png;base64," ++ base64Data in
        Resolved {|
          content := [ {| type := "text"; text := dataUri |} ];
          structuredContent :=
            {| Structured.content := [ {| type := "text"; text := dataUri |} ] |}
        |}
    end in
  match attempt with
  | Resolved response => Resolved response
  | Rejected error =>
      let errorMessage := errorMessageOf error in
      Resolved {|
        content := [ {| type := "text"; text := "오류: " ++ errorMessage |} ];
        structuredContent :=
          {| Structured.content :=
               [ {| type := "text"; text := "오류: " ++ errorMessage |} ] |}
      |}
  end.

(** ** server-info (index.ts 680-749) *)

Module Manifest.
(** One entry of [serverInfo.tools]. *)
Record t : Type := {
  name : string;
  description : string;
  input : list (string * string)
}.
End Manifest.

(** The [tools] array the producer writes out (index.ts 695-736). *)
Definition manifestTools : list Manifest.t :=
  [ {| Manifest.name := "greet";
       Manifest.description := "이름과 언어를 입력하면 인사말을 반환합니다.";
       Manifest.input :=
         [ ("name", "string - 인사할 사람의 이름");
           ("language",
            "enum[" ++ JS.dquote ++ "ko" ++ JS.dquote ++ ", " ++
            JS.dquote ++ "en" ++ JS.dquote ++ "] (optional, default: " ++
            JS.dquote ++ "en" ++ JS.dquote ++ ") - 인사 언어") ] |};
    {| Manifest.name := "calculator";
       Manifest.description := "두 개의 숫자와 연산자를 입력받아 사칙연산 결과를 반환합니다.";
       Manifest.input :=
         [ ("num1", "number - 첫 번째 숫자");
           ("num2", "number - 두 번째 숫자");
           ("operator",
            "enum[" ++ JS.dquote ++ "+" ++ JS.dquote ++ ", " ++
            JS.dquote ++ "-" ++ JS.dquote ++ ", " ++
            JS.dquote ++ "*" ++ JS.dquote ++ ", " ++
            JS.dquote ++ "/" ++ JS.dquote ++ "] - 연산자") ] |};
    {| Manifest.name := "time";
       Manifest.description := "시간대를 입력받아 해당 시간대의 현재 시각을 반환합니다.";
       Manifest.input :=
         [ ("timezone", "string - 시간대 (예: UTC+9, UTC+0, UTC-5)") ] |};
    {| Manifest.name := "geocode";
       Manifest.description := "도시 이름이나 주소를 입력받아서 위도와 경도 좌표를 반환합니다.";
       Manifest.input :=
         [ ("query", "string - 검색할 도시 이름이나 주소") ] |};
    {| Manifest.name := "get-weather";
       Manifest.description :=
         "위도와 경도 좌표, 예보 기간을 입력받아서 해당 위치의 현재 날씨와 예보 정보를 제공합니다.";
       Manifest.input :=
         [ ("latitude", "number (-90 ~ 90) - 위도");
           ("longitude", "number (-180 ~ 180) - 경도");
           ("forecastDays", "number (1~16, optional, default: 7) - 예보 기간 (일 단위)") ] |} ].

Definition manifestToJson (entry : Manifest.t) : JS.Json :=
  JS.JObject
    [ ("name", JS.JString (Manifest.name entry));
      ("description", JS.JString (Manifest.description entry));
      ("input",
       JS.JObject (map (fun field => (fst field, JS.JString (snd field)))
                       (Manifest.input entry))) ].

(** [{ uri, mimeType, text }] *)
Record ResourceContent : Type := {
  uri : string;
  mimeType : string;
  resource_text : string
}.

Record ResourceResult : Type := { contents : list ResourceContent }.

(** The producer.  [uptime] is [process.uptime()] and [now] the time value
    of [new Date()], both taken when the resource is read. *)
Definition server_info (uptime : float) (now : Z) : Outcome ResourceResult :=
  let serverInfo :=
    JS.JObject
      [ ("server",
         JS.JObject
           [ ("name", JS.JString "my-mcp-server");
             ("version", JS.JString "1.0.0");
             ("uptime", JS.JNumber uptime);
             ("timestamp", JS.JString (JS.toISOString now)) ]);
        ("tools", JS.JArray (map manifestToJson manifestTools)) ] in
  Resolved {|
    contents :=
      [ {| uri := "server://info";
           mimeType := "application/json";
           resource_text := JS.stringify EmptyString serverInfo |} ]
  |}.

(** ** The registry

    [index.ts] builds the server by a sequence of registration calls; the
    registry is the state they thread.  Each call adds one entry.  (No name
    is registered twice in [index.ts], so what the SDK does with a duplicate
    does not come into play.) *)

Module Tool.
(** What [registerTool] is given, the handler apart: the name, the
    description and the field names of [inputSchema]. *)
Record t : Type := {
  name : string;
  description : string;
  inputSchema : list string
}.
End Tool.

Module Prompt.
(** [registerPrompt(name, { description, argsSchema }, ...)] *)
Record t : Type := {
  name : string;
  description : string;
  argsSchema : list string
}.
End Prompt.

Module Resource.
(** [resource(name, uri, { description, mimeType }, ...)] *)
Record t : Type := {
  name : string;
  uri : string;
  description : string;
  mimeType : string
}.
End Resource.

Record McpServer : Type := {
  serverName : string;
  serverVersion : string;
  registeredTools : list Tool.t;
  registeredPrompts : list Prompt.t;
  registeredResources : list Resource.t
}.

Definition newMcpServer (name version : string) : McpServer :=
  {| serverName := name; serverVersion := version;
     registeredTools := []; registeredPrompts := []; registeredResources := [] |}.

Definition registerTool (name description : string) (inputSchema : list string)
    (server : McpServer) : McpServer :=
  {| serverName := serverName server;
     serverVersion := serverVersion server;
     registeredTools :=
       registeredTools server ++
       [ {| Tool.name := name; Tool.description := description;
            Tool.inputSchema := inputSchema |} ];
     registeredPrompts := registeredPrompts server;
     registeredResources := registeredResources server |}.

Definition registerPrompt (name description : string) (argsSchema : list string)
    (server : McpServer) : McpServer :=
  {| serverName := serverName server;
     serverVersion := serverVersion server;
     registeredTools := registeredTools server;
     registeredPrompts :=
       registeredPrompts server ++
       [ {| Prompt.name := name; Prompt.description := description;
            Prompt.argsSchema := argsSchema |} ];
     registeredResources := registeredResources server |}.

Definition resource (name uri description mimeType : string) (server : McpServer)
  : McpServer :=
  {| serverName := serverName server;
     serverVersion := serverVersion server;
     registeredTools := registeredTools server;
     registeredPrompts := registeredPrompts server;
     registeredResources :=
       registeredResources server ++
       [ {| Resource.name := name; Resource.uri := uri;
            Resource.description := description;
            Resource.mimeType := mimeType |} ] |}.

(** The server once [index.ts] has run down to [server.connect], call by
    call in source order (lines 15, 20, 68, 138, 221, 323, 519, 589, 680). *)
Definition server : McpServer :=
  let s := newMcpServer "my-mcp-server" "1.0.0" in
  let s := registerTool "greet"
             "이름과 언어를 입력하면 인사말을 반환합니다."
             ["name"; "language"] s in
  let s := registerTool "calculator"
             "두 개의 숫자와 연산자를 입력받아 사칙연산 결과를 반환합니다."
             ["num1"; "num2"; "operator"] s in
  let s := registerTool "time"
             "시간대를 입력받아 해당 시간대의 현재 시각을 반환합니다."
             ["timezone"] s in
  let s := registerTool "geocode"
             "도시 이름이나 주소를 입력받아서 위도와 경도 좌표를 반환합니다."
             ["query"] s in
  let s := registerTool "get-weather"
             "위도와 경도 좌표, 예보 기간을 입력받아서 해당 위치의 현재 날씨와 예보 정보를 제공합니다."
             ["latitude"; "longitude"; "forecastDays"] s in
  let s := registerPrompt "code-review"
             "코드를 입력받아 코드 리뷰를 위한 프롬프트를 생성합니다."
             ["code"; "language"; "focus"] s in
  let s := registerTool "generate-image"
             "프롬프트를 입력받아 AI로 이미지를 생성합니다."
             ["prompt"] s in
  let s := resource "server-info" "server://info"
             "현재 서버 정보와 사용 가능한 도구 목록" "application/json" s in
  s.

(** ** Dispatch *)

Inductive ProtocolError : Type :=
| UnknownCapability (name : string)
| InvalidArgument (field message : string).

Inductive Reply (A : Type) : Type :=
| ProtocolFailure (error : ProtocolError)
| Handled (outcome : Outcome A).
Arguments ProtocolFailure {A} error.
Arguments Handled {A} outcome.

(** Modelled from the spec: the dispatcher's validation step (section 4.2,
    steps 2 and 3), which the SDK's [McpServer] carries out and [index.ts]
    only configures with the schema of line 145 and its message.  The
    argument is checked against the schema; only when it passes is the
    handler invoked. *)
Definition invoke_time (handler : string -> Outcome ToolResult) (timezone : string)
  : Reply ToolResult :=
  if timezone_schema timezone
  then Handled (handler timezone)
  else ProtocolFailure
         (InvalidArgument "timezone"
            "시간대는 UTC+숫자 또는 UTC-숫자 형식이어야 합니다.").

(** ** The input schemas of greet and calculator (index.ts 26-30, 75-77)

    What the schema makes of a raw argument: the validated value, or
    [None] when it rejects. *)

(** [z.enum(['ko', 'en']).optional().default('en')]: a missing argument
    becomes ['en']. *)
Definition greet_language_schema (language : option string) : option string :=
  match language with
  | None => Some "en"
  | Some given =>
      if existsb (String.eqb given) ["ko"; "en"] then Some given else None
  end.

(** [z.enum(['+', '-', '*', '/'])] *)
Definition operator_schema (operator : string) : option string :=
  if existsb (String.eqb operator) ["+"; "-"; "*"; "/"] then Some operator else None.

(** ** Vocabulary of the specification

    The definitions below are not in [index.ts]: they spell out what the
    specification's sentences say, so that the handlers can be compared
    with them. *)

(** A response with [t] as its sole text block, and its structured mirror. *)
Definition textResult (t : string) : ToolResult :=
  {| content := [ {| type := "text"; text := t |} ];
     structuredContent :=
       {| Structured.content := [ {| type := "text"; text := t |} ] |} |}.

(** "symbol mapped {+ , - , × , ÷}" *)
Definition symbolOf (operator : string) : string :=
  if (operator =? "*")%string then "×"
  else if (operator =? "/")%string then "÷"
  else operator.

(** [num1 op num2] as JavaScript evaluates it: in binary64, rounding to
    nearest. *)
Definition arith (operator : string) (num1 num2 : float) : float :=
  if (operator =? "+")%string then (num1 + num2)%float
  else if (operator =? "-")%string then (num1 - num2)%float
  else if (operator =? "*")%string then (num1 * num2)%float
  else (num1 / num2)%float.

(** The text "{a} + {b} = {a + b}" with the sum taken in the integers. *)
Definition exactSumText (a b : Z) : string :=
  JS.intToString a ++ " + " ++ JS.intToString b ++ " = " ++ JS.intToString (a + b).

(** The codes the specification lists for [getWeatherDescription]. *)
Definition documentedCodes : list float :=
  [0; 1; 2; 3; 45; 48; 51; 53; 55; 56; 57; 61; 63; 65; 66; 67; 71; 73; 75; 77;
   80; 81; 82; 85; 86; 95; 96; 99]%float.

(** The structured mirror repeats the content list, element for element. *)
Definition mirrored (r : ToolResult) : Prop :=
  Structured.content (structuredContent r) = content r.

(** The handler's promise resolves (it does not reject), with text blocks
    only and a structured mirror of them. *)
Definition resolvesMirrored (o : Outcome ToolResult) : Prop :=
  exists r, o = Resolved r /\ mirrored r /\ Forall (fun b => type b = "text") (content r).


(** "formats as YYYY-MM-DD HH:MM:SS": the UTC calendar fields of the
    instant [t], zero-padded. *)
Definition specifiedTimestamp (t : Z) : string :=
  let '(y, m, d) := JS.civil_from_days (t / JS.msPerDay) in
  JS.padZeros 4 y ++ "-" ++ JS.padZeros 2 m ++ "-" ++ JS.padZeros 2 d ++ " " ++
  JS.padZeros 2 ((t / 3600000) mod 24) ++ ":" ++
  JS.padZeros 2 ((t / 60000) mod 60) ++ ":" ++
  JS.padZeros 2 ((t / 1000) mod 60).

(** "the signed hour offset parsed from the timezone string", in
    milliseconds. *)
Definition specifiedOffset (sign : ascii) (digits : string) : Z :=
  (if (sign =? "+")%char then 1 else -1) * JS.parseInt10 digits * 3600000.

(** A prompt result with [t] as the text of its single user message. *)
Definition promptResult (t : string) : PromptResult :=
  {| messages :=
       [ {| Message.role := "user";
            Message.content := {| type := "text"; text := t |} |} ] |}.

(** "substitutes [code] into a fixed five-section review template": the
    template with its placeholder [{code}] replaced by the code as it is. *)
Definition substituteCode (code : string) : string :=
  match JS.split_first "{code}" codeReviewPromptTemplate with
  | Some (before, after) => before ++ code ++ after
  | None => codeReviewPromptTemplate
  end.

(** "appends a guideline block when the key matches (case-insensitive) a
    known entry; unrecognized values are silently ignored". *)
Definition guidelineBlock (table : list (string * string)) (key : option string)
  : string :=
  match key with
  | Some k =>
      match JS.assoc (JS.toLowerCase k) table with
      | Some block => block
      | None => EmptyString
      end
  | None => EmptyString
  end.

Definition specifiedReview (code : string) (language focus : option string) : string :=
  (substituteCode code ++ guidelineBlock languageGuidelines language) ++
  guidelineBlock focusGuidelines focus.

(** The two property names that survive lowercasing and that every object
    literal inherits from [Object.prototype]. *)
Definition inheritedKey (key : option string) : Prop :=
  match key with
  | Some k => JS.toLowerCase k = "constructor" \/ JS.toLowerCase k = "__proto__"
  | None => False
  end.

Fixpoint hasDollar (s : string) : bool :=
  match s with
  | EmptyString => false
  | String c rest => (c =? "$")%char || hasDollar rest
  end.

(** ** Vocabulary of the further properties *)

Fixpoint containsChar (c : ascii) (s : string) : bool :=
  match s with
  | EmptyString => false
  | String c' rest => (c' =? c)%char || containsChar c rest
  end.

(** The characters that separate the parts of a URL and of its query. *)
Definition urlDelimiters : list ascii :=
  [ "&"; "="; "#"; "?"; "/"; " "; "+"; ":"; ";"; "@" ]%char.

(** The URL the geocode handler builds for a query (index.ts 244-245). *)
Definition geocodeUrl (query : string) : string :=
  "https://nominatim.openstreetmap.org/search?q=" ++ JS.encodeURIComponent query ++
  "&format=jsonv2&limit=1&addressdetails=1".

(** The URL the get-weather handler builds (index.ts 361). *)
Definition weatherUrl (latitude longitude : float) (forecastDays : Z) : string :=
  "https://api.open-meteo.com/v1/forecast?latitude=" ++ JS.numToString latitude ++
  "&longitude=" ++ JS.numToString longitude ++
  "&current_weather=true&hourly=temperature_2m,precipitation,weathercode" ++
  "&daily=temperature_2m_max,temperature_2m_min,precipitation_sum,weathercode" ++
  "&forecast_days=" ++ JS.intToString forecastDays ++ "&timezone=auto".

(** The block get-weather writes for the current conditions (index.ts
    417-421). *)
Definition currentConditions (current : CurrentWeather) : string :=
  "=== 현재 날씨 ===" ++ JS.nl ++
  "온도: " ++ JS.numToString (temperature current) ++ "°C" ++ JS.nl ++
  "날씨: " ++ getWeatherDescription (weathercode current) ++ JS.nl ++
  "풍속: " ++ JS.numToString (windspeed current) ++ " km/h" ++ JS.nl ++
  "풍향: " ++ JS.numToString (winddirection current) ++ "°" ++ JS.nl ++ JS.nl.

(** A forecast whose daily arrays are cut down to their first [n]
    entries. *)
Definition truncateDaily (n : nat) (d : Daily.t) : Daily.t :=
  {| Daily.time := option_map (firstn n) (Daily.time d);
     Daily.temperature_2m_max := option_map (firstn n) (Daily.temperature_2m_max d);
     Daily.temperature_2m_min := option_map (firstn n) (Daily.temperature_2m_min d);
     Daily.precipitation_sum := option_map (firstn n) (Daily.precipitation_sum d);
     Daily.weathercode := option_map (firstn n) (Daily.weathercode d) |}.

Definition truncateForecast (n : nat) (data : option Forecast) : option Forecast :=
  option_map
    (fun f => {| current_weather := current_weather f;
                 daily := option_map (truncateDaily n) (daily f) |})
    data.

(** The HTTP client whose parsed bodies are passed through [change]. *)
Definition mapBody {Body : Type} (change : Body -> Body) (fetch : Fetch Body)
  : Fetch Body :=
  fun url headers =>
    match fetch url headers with
    | Resolved response =>
        Resolved {| ok := ok response; status := status response;
                    statusText := statusText response;
                    json := match json response with
                            | Resolved data => Resolved (change data)
                            | Rejected error => Rejected error
                            end |}
    | Rejected error => Rejected error
    end.

(** Reading base64 back: the position of a character in the alphabet, and
    the bytes that four characters at a time stand for. *)
Fixpoint indexIn (c : ascii) (alphabet : string) : nat :=
  match alphabet with
  | EmptyString => O
  | String a rest => if (a =? c)%char then O else S (indexIn c rest)
  end.

Definition base64_index (c : ascii) : nat := indexIn c JS.base64_alphabet.

Fixpoint base64_decode (s : string) : string :=
  match s with
  | String c1 (String c2 (String c3 (String c4 rest))) =>
      let i1 := base64_index c1 in
      let i2 := base64_index c2 in
      let b1 := ascii_of_nat (i1 * 4 + i2 / 16) in
      if (c3 =? "=")%char then String b1 EmptyString
      else
        let i3 := base64_index c3 in
        let b2 := ascii_of_nat (i2 mod 16 * 16 + i3 / 4) in
        if (c4 =? "=")%char then String b1 (String b2 EmptyString)
        else
          let i4 := base64_index c4 in
          let b3 := ascii_of_nat (i3 mod 4 * 64 + i4) in
          String b1 (String b2 (String b3 (base64_decode rest)))
  | _ => EmptyString
  end%nat.

(** The two steps of [JS.digits_of], named: the [k]-digit candidate just
    below the value, and the carry of [99...9 + 1] into one more digit. *)
Definition floor_digits (vN D p : Z) : Z :=
  if 0 <=? p then vN / (D * 10 ^ p) else (vN * 10 ^ (- p)) / D.

Definition renormalise (t : Z * Z * Z) : Z * Z * Z :=
  let '(s, k, n) := t in if s =? 10 ^ k then (1, 1, n + 1) else (s, k, n).

(** The characters a printed number can start with: a digit, the minus
    sign, or the first letter of [NaN] and [Infinity]. *)
Definition numericStart (c : ascii) : bool :=
  JS.is_digit c || Ascii.eqb c "-" || Ascii.eqb c "N" || Ascii.eqb c "I".

(** ** Sample answers of the outside world, for the examples *)

(** A place without [display_name]. *)
Definition seoulReply : Fetch GeocodeData :=
  fun _ _ =>
    Resolved {| ok := true; status := 200; statusText := "OK";
                json := Resolved (Places [ {| lat := Some "37.5666791";
                                              lon := Some "126.9782914";
                                              display_name := None |} ]) |}.


(** An HTTP failure. *)
Definition unavailableReply {Body : Type} : Fetch Body :=
  fun _ _ =>
    Resolved {| ok := false; status := 503; statusText := "Service Unavailable";
                json := Rejected (ErrorObject "Unexpected end of JSON input") |}.

(** A three-day forecast. *)
Definition threeDays : Fetch (option Forecast) :=
  fun _ _ =>
    Resolved {| ok := true; status := 200; statusText := "OK";
                json :=
                  Resolved (Some
                    {| current_weather :=
                         Some {| temperature := 3; weathercode := 61;
                                 windspeed := 10; winddirection := 270 |};
                       daily :=
                         Some {| Daily.time :=
                                   Some ["2024-01-15"; "2024-01-16"; "2024-01-17"];
                                 Daily.temperature_2m_max :=
                                   Some [Some 5%float; Some 6%float; Some 7%float];
                                 Daily.temperature_2m_min :=
                                   Some [Some 1%float; None; Some 2%float];
                                 Daily.precipitation_sum :=
                                   Some [Some 0%float; Some 2%float; Some 4%float];
                                 Daily.weathercode :=
                                   Some [Some 3%float; Some 61%float; Some 4%float] |} |}) |}.

(** A reply without [current_weather]. *)
Definition noCurrentWeather : Fetch (option Forecast) :=
  fun _ _ =>
    Resolved {| ok := true; status := 200; statusText := "OK";
                json := Resolved (Some {| current_weather := None; daily := None |}) |}.

(** A reply with the current conditions only. *)
Definition currentOnly : Fetch (option Forecast) :=
  fun _ _ =>
    Resolved {| ok := true; status := 200; statusText := "OK";
                json :=
                  Resolved (Some
                    {| current_weather :=
                         Some {| temperature := 3; weathercode := 61;
                                 windspeed := 10; winddirection := 270 |};
                       daily := None |}) |}.

(** [Date.parse] on the three dates of [threeDays]. *)
Definition parseThreeDays (timeString : string) : option Z :=
  if (timeString =? "2024-01-15")%string then Some 1705276800000
  else if (timeString =? "2024-01-16")%string then Some 1705363200000
  else if (timeString =? "2024-01-17")%string then Some 1705449600000
  else None.



(** ** Proof automation *)

(** Closes [resolvesMirrored] once the handler's branches are exposed. *)
Ltac resolved_mirrored :=
  eexists; split; [reflexivity | split; [reflexivity | repeat constructor]].

(** A string the schema rejects is a string the handler's pattern
    rejects. *)
Ltac no_match := simpl; split; [discriminate | congruence].

(** Case analysis on the eight bits of a character. *)
Ltac by_bits c :=
  destruct c as [[|] [|] [|] [|] [|] [|] [|] [|]]; try no_match.

(** Quotient and remainder of [t] by the constant [d], for [lia]. *)
Ltac euclid t d :=
  pose proof (Nat.div_mod_eq t d);
  pose proof (Nat.mod_upper_bound t d ltac:(discriminate)).

(** The digits [s] and the number [J] of zeros after them that spell a
    given numeral of one or two digits; [nonempty] and [inj] are the facts
    that [JS.intToString] prints at least one character and is injective. *)
Ltac digits_of_key nonempty inj :=
  let s := fresh "s" in
  let J := fresh "J" in
  let H := fresh "H" in
  let Hds := fresh "Hds" in
  intros s J H;
  pose proof (nonempty s) as Hds;
  assert (Hinv : forall z, JS.intToString s = JS.intToString z -> s = z)
    by (intro z; apply inj);
  destruct (JS.intToString s) as [| a [| b [| c ds]]];
  destruct J as [| [| [| J]]];
  cbn [append JS.repeat_char] in H;
  try congruence;
  inversion H; subst;
  match goal with
  | Hinv : forall z, ?str = JS.intToString z -> _ |- _ =>
      let z := eval vm_compute in (JS.parse_digits 0 str) in
      rewrite (Hinv z eq_refl)
  end;
  (split; [reflexivity | lia]).

(** Instantiates [inv], the lemma that reads a printed numeral back, at the
    numeral [key] of the integer [c = m * 2^-j]. *)
Ltac listed_code inv nonempty inj key c j listed :=
  apply (inv key c j listed);
  [ reflexivity
  | digits_of_key nonempty inj
  | lia
  | lia
  | let Hne := fresh "Hne" in
    intro Hne;
    first [ exfalso; apply Hne; reflexivity
          | split; [apply Z.leb_le | apply Z.ltb_lt]; vm_compute; reflexivity ]
  | vm_compute; reflexivity ].

(** * Properties *)

(** ** The runtime model on known values *)

Example numToString_tenth : JS.numToString (1 / 10) = "0.1".
Proof. vm_compute. reflexivity. Qed.

Example numToString_classic_sum :
  JS.numToString (1 / 10 + 2 / 10) = "0.30000000000000004".
Proof. vm_compute. reflexivity. Qed.

Example numToString_large : JS.numToString (JS.parseFloat "1e21") = "1e+21".
Proof. vm_compute. reflexivity. Qed.

Example numToString_small : JS.numToString (JS.parseFloat "0.0000001") = "1e-7".
Proof. vm_compute. reflexivity. Qed.

Example numToString_integer_digits :
  JS.numToString (JS.parseFloat "123456789012345678901") = "123456789012345680000".
Proof. vm_compute. reflexivity. Qed.

Example numToString_negative_zero : JS.numToString (-0) = "0".
Proof. vm_compute. reflexivity. Qed.

Example numToString_not_a_number : JS.numToString (0 / 0) = "NaN".
Proof. vm_compute. reflexivity. Qed.

Example parseFloat_prefix :
  JS.numToString (JS.parseFloat "  -12.5e1px") = "-125".
Proof. vm_compute. reflexivity. Qed.

Example parseFloat_undefined : JS.numToString (JS.parseFloat "undefined") = "NaN".
Proof. vm_compute. reflexivity. Qed.

Example parseFloat_ties_to_even :
  JS.numToString (JS.parseFloat "9007199254740993") = "9007199254740992".
Proof. vm_compute. reflexivity. Qed.

Example civil_epoch : JS.civil_from_days 0 = (1970, 1, 1).
Proof. reflexivity. Qed.

Example civil_leap_day : JS.civil_from_days 11016 = (2000, 2, 29).
Proof. reflexivity. Qed.

Example civil_before_epoch : JS.civil_from_days (-1) = (1969, 12, 31).
Proof. reflexivity. Qed.

Example civil_last_day : JS.civil_from_days 100000000 = (275760, 9, 13).
Proof. reflexivity. Qed.

Example toISOString_sample : JS.toISOString 1700000000123 = "2023-11-14T22:13:20.123Z".
Proof. vm_compute. reflexivity. Qed.

Example replace_patterns :
  JS.replace "abc{code}def" "{code}" "[$$|$&|$`|$'|$1]" = "abc[$|{code}|abc|def|$1]def".
Proof. vm_compute. reflexivity. Qed.

Example getProperty_own :
  JS.getProperty [("go", "Go")] "go" = Some (JS.StringValue "Go").
Proof. reflexivity. Qed.

Example getProperty_inherited :
  JS.getProperty [("go", "Go")] "constructor" = Some (JS.BuiltinFunction "Object").
Proof. reflexivity. Qed.

Example getProperty_missing : JS.getProperty [("go", "Go")] "rust" = None.
Proof. reflexivity. Qed.

Example base64_padding : JS.base64 "Ma" = "TWE=".
Proof. reflexivity. Qed.

Example encodeURIComponent_sample :
  JS.encodeURIComponent "New York/서울" = "New%20York%2F%EC%84%9C%EC%9A%B8".
Proof. reflexivity. Qed.

(** ** greet *)

Example greet_korean : greet "민수" "ko" = Resolved (textResult "안녕하세요, 민수님!").
Proof. reflexivity. Qed.

Example greet_english :
  greet "Alice" "en" = Resolved (textResult "Hey there, Alice! 👋 Nice to meet you!").
Proof. reflexivity. Qed.

(** ** calculator *)

Example calculator_adds : calculator 5 3 "+" = Resolved (textResult "5 + 3 = 8").
Proof. vm_compute. reflexivity. Qed.

Example calculator_divides :
  calculator 1 3 "/" = Resolved (textResult "1 ÷ 3 = 0.3333333333333333").
Proof. vm_compute. reflexivity. Qed.

Example calculator_negative_zero_divisor :
  calculator 5 (-0) "/" = Resolved (textResult "오류: 0으로 나눌 수 없습니다.").
Proof. vm_compute. reflexivity. Qed.

(** C3.  For every number [num1], [calculator(num1, 0, '/')] resolves (it
    does not throw) with a success-shaped response whose text is exactly
    "오류: 0으로 나눌 수 없습니다.". *)
Theorem calculator_division_by_zero : forall num1 : float,
  calculator num1 0 "/" = Resolved (textResult "오류: 0으로 나눌 수 없습니다.").
Proof.
  intro num1. unfold calculator, textResult. reflexivity.
Qed.

(** C2, amended.  For every pair of numbers and every operator among
    [+ - * /], division by zero apart, the calculator resolves with the
    single text block "{num1} {symbol} {num2} = {result}", where the symbol
    is the operator mapped by {+ to +, - to -, * to ×, / to ÷} and the
    result is [num1 op num2] computed in binary64 floating point. *)
Theorem calculator_formats_result : forall (num1 num2 : float) (operator : string),
  In operator operators ->
  (operator = "/" -> (num2 =? 0)%float = false) ->
  calculator num1 num2 operator =
  Resolved (textResult (JS.numToString num1 ++ " " ++ symbolOf operator ++ " " ++
                        JS.numToString num2 ++ " = " ++
                        JS.numToString (arith operator num1 num2))).
Proof.
  intros num1 num2 operator Hop Hdiv.
  unfold operators in Hop. simpl in Hop.
  destruct Hop as [<- | [<- | [<- | [<- | []]]]];
    unfold calculator, textResult, symbolOf, arith; simpl; try reflexivity.
  rewrite (Hdiv eq_refl). reflexivity.
Qed.

Lemma calculator_formats_result_witness :
  calculator 1 3 "/" =
  Resolved (textResult (JS.numToString 1 ++ " " ++ symbolOf "/" ++ " " ++
                        JS.numToString 3 ++ " = " ++ JS.numToString (arith "/" 1 3))).
Proof.
  apply (calculator_formats_result 1 3 "/").
  - simpl. right. right. right. left. reflexivity.
  - intros _. reflexivity.
Defined.

(** C2 as stated fails: 2^53 and 1 are both numbers, their exact sum
    9007199254740993 is not, and the calculator prints the rounded sum. *)
Lemma calculator_sum_not_exact :
  calculator 9007199254740992 1 "+" =
    Resolved (textResult "9007199254740992 + 1 = 9007199254740992") /\
  calculator 9007199254740992 1 "+" <>
    Resolved (textResult (exactSumText 9007199254740992 1)).
Proof.
  split.
  - vm_compute. reflexivity.
  - vm_compute. intro H. discriminate H.
Qed.

(** ** get-weather: the weather-code table *)

(** *** A printed numeral reads back as its number *)

(** Two integers with the same decimal numeral are equal. *)
Lemma intToString_inj (a b : Z) : JS.intToString a = JS.intToString b -> a = b.
Proof.
  unfold JS.intToString. intro H.
  assert (Hnn : forall z, Z.to_int z <> Decimal.Pos Decimal.Nil /\ Z.to_int z <> Decimal.Neg Decimal.Nil).
  { intros [| p | p]; simpl; split; try discriminate;
      intro Habs; injection Habs as Habs;
      exact (DecimalPos.Unsigned.to_uint_nonnil p Habs). }
  apply (f_equal NilZero.int_of_string) in H.
  rewrite !NilZero.isi in H by apply Hnn.
  injection H as H.
  rewrite <- (DecimalZ.of_to a), <- (DecimalZ.of_to b), H. reflexivity.
Qed.

Lemma intToString_first (s : Z) :
  exists c rest, JS.intToString s = String c rest /\ (JS.is_digit c = true \/ c = "-"%char).
Proof.
  unfold JS.intToString. destruct (Z.to_int s) as [d | d].
  - destruct d; simpl; eexists; eexists; split; try reflexivity; left; reflexivity.
  - simpl. eexists; eexists; split; [reflexivity | right; reflexivity].
Qed.

(** [JS.decimal_order] returns a power of ten above the value, unless it
    runs through all the steps it is given. *)
Lemma decimal_order_spec (fuel : nat) : forall start num den,
  let n := JS.decimal_order fuel start num den in
  ((if 0 <=? n then num <? den * 10 ^ n else num * 10 ^ (- n) <? den) = true \/
   n = start + Z.of_nat fuel) /\
  start <= n <= start + Z.of_nat fuel.
Proof.
  induction fuel as [| f IH]; intros start num den.
  - simpl. split; [right; lia | lia].
  - cbn [JS.decimal_order].
    destruct (if 0 <=? start then num <? den * 10 ^ start
              else num * 10 ^ (- start) <? den) eqn:Htest.
    + split; [left; exact Htest | lia].
    + specialize (IH (start + 1) num den). cbv zeta in IH.
      destruct IH as [[Hfound | Hend] Hrange].
      * split; [left; exact Hfound | lia].
      * split; [right; lia | lia].
Qed.

(** [JS.shortest] returns digits that round to the double, unless no
    candidate did on its last round, when it returns the candidate below. *)
Lemma shortest_spec (fuel : nat) : forall k n incl vN loN hiN D s k' n',
  JS.shortest fuel k n incl vN loN hiN D = (s, k', n') ->
  n' = n /\ k <= k' <= k + Z.of_nat fuel /\
  (JS.in_interval incl s (n - k') loN hiN D = true \/
   (k' = k + Z.of_nat fuel /\ s = floor_digits vN D (n - k'))).
Proof.
  induction fuel as [| f IH]; intros k n incl vN loN hiN D s k' n' H.
  - cbn [JS.shortest] in H. cbv zeta in H. fold (floor_digits vN D (n - k)) in H.
    destruct (JS.in_interval incl (floor_digits vN D (n - k)) (n - k) loN hiN D) eqn:Hlo;
      destruct (JS.in_interval incl (floor_digits vN D (n - k) + 1) (n - k) loN hiN D) eqn:Hhi;
      cbn [andb] in H.
    + destruct (match JS.cmp_pow10 _ _ _ _ with Lt => true | Gt => false | Eq => _ end);
        injection H as <- <- <-; (split; [reflexivity | split; [lia | left; assumption]]).
    + injection H as <- <- <-. split; [reflexivity | split; [lia | left; assumption]].
    + injection H as <- <- <-. split; [reflexivity | split; [lia | left; assumption]].
    + injection H as <- <- <-. split; [reflexivity | split; [lia | right; split; [lia | reflexivity]]].
  - cbn [JS.shortest] in H. cbv zeta in H. fold (floor_digits vN D (n - k)) in H.
    destruct (JS.in_interval incl (floor_digits vN D (n - k)) (n - k) loN hiN D) eqn:Hlo;
      destruct (JS.in_interval incl (floor_digits vN D (n - k) + 1) (n - k) loN hiN D) eqn:Hhi;
      cbn [andb] in H.
    + destruct (match JS.cmp_pow10 _ _ _ _ with Lt => true | Gt => false | Eq => _ end);
        injection H as <- <- <-; (split; [reflexivity | split; [lia | left; assumption]]).
    + injection H as <- <- <-. split; [reflexivity | split; [lia | left; assumption]].
    + injection H as <- <- <-. split; [reflexivity | split; [lia | left; assumption]].
    + apply IH in H. destruct H as [Hn [Hk Hres]].
      split; [exact Hn | split; [lia |]].
      destruct Hres as [Hin | [Hk' Hs]]; [left; exact Hin | right; split; [lia | exact Hs]].
Qed.

Lemma in_interval_bounds incl s p lo hi D :
  JS.in_interval incl s p lo hi D = true ->
  JS.cmp_pow10 s p lo D <> Lt /\ JS.cmp_pow10 s p hi D <> Gt.
Proof.
  unfold JS.in_interval.
  destruct (JS.cmp_pow10 s p lo D), (JS.cmp_pow10 s p hi D); intro H;
    try discriminate; split; discriminate.
Qed.

Lemma cmp_pow10_value (s p N D c : Z) :
  0 < D ->
  (0 <= p -> s * 10 ^ p = c) ->
  (p < 0 -> s = c * 10 ^ (- p)) ->
  JS.cmp_pow10 s p N D = (c * D ?= N).
Proof.
  intros HD Hpos Hneg. unfold JS.cmp_pow10.
  destruct (Z.leb_spec 0 p) as [Hp | Hp].
  - rewrite (Hpos Hp). reflexivity.
  - rewrite (Hneg Hp).
    replace (c * 10 ^ (- p) * D) with (c * D * 10 ^ (- p)) by ring.
    symmetry. apply Zmult_compare_compat_r.
    apply Z.lt_gt. apply Z.pow_pos_nonneg; lia.
Qed.

Lemma all_digits_app (a b : string) :
  JS.all_digits (a ++ b) = JS.all_digits a && JS.all_digits b.
Proof.
  induction a as [| c a IH]; simpl; [reflexivity |].
  rewrite IH. apply andb_assoc.
Qed.

Lemma all_digits_not (a sep b : string) :
  JS.all_digits sep = false -> JS.all_digits (a ++ sep ++ b) = false.
Proof.
  intro Hsep. rewrite !all_digits_app, Hsep. apply andb_false_r.
Qed.

(** Only the plain form, digits then zeros, prints nothing but digits. *)
Lemma format_digit_string (s k n : Z) (key : string) :
  JS.all_digits key = true ->
  JS.format_digits s k n = key ->
  k <= n /\ JS.intToString s ++ JS.repeat_char "0" (Z.to_nat (n - k)) = key.
Proof.
  intros Hkey H. unfold JS.format_digits in H.
  destruct ((k <=? n) && (n <=? 21)) eqn:Hfixed.
  - apply andb_prop in Hfixed. destruct Hfixed as [Hkn _].
    apply Z.leb_le in Hkn. split; assumption.
  - exfalso. rewrite <- H in Hkey. clear H.
    destruct ((0 <? n) && (n <=? 21)).
    + rewrite all_digits_not in Hkey by reflexivity. discriminate.
    + destruct ((-6 <? n) && (n <=? 0)).
      * discriminate.
      * destruct (k =? 1).
        -- rewrite all_digits_not in Hkey by reflexivity. discriminate.
        -- rewrite all_digits_not in Hkey by reflexivity. discriminate.
Qed.

(** Where the search for the order of magnitude starts, for values below
    198 and from 1 on. *)
Lemma start_bounds (vN D : Z) :
  0 < vN -> 0 < D ->
  let l := Z.log2 vN - Z.log2 D - 1 in
  let start := (if 0 <=? l then l * 30102 / 100000 else l * 30103 / 100000) - 1 in
  (vN < 198 * D -> start + 8 < 18) /\ (D <= vN -> 1 < start + 8).
Proof.
  intros HvN HD l start. split.
  - intro Hlt.
    assert (Hl : l <= 7).
    { assert (H1 : Z.log2 vN <= Z.log2 (198 * D)) by (apply Z.log2_le_mono; lia).
      assert (H2 : Z.log2 (198 * D) <= Z.log2 198 + Z.log2 D + 1)
        by (apply Z.log2_mul_above; lia).
      change (Z.log2 198) with 7 in H2. unfold l. lia. }
    unfold start. destruct (Z.leb_spec 0 l) as [Hpos | Hneg].
    + assert (l * 30102 / 100000 <= l) by (apply Z.div_le_upper_bound; lia). lia.
    + assert (l * 30103 / 100000 <= 0) by (apply Z.div_le_upper_bound; lia). lia.
  - intro Hle.
    assert (Hl : -1 <= l).
    { assert (H1 : Z.log2 D <= Z.log2 vN) by (apply Z.log2_le_mono; lia).
      unfold l. lia. }
    unfold start. destruct (Z.leb_spec 0 l) as [Hpos | Hneg].
    + assert (0 <= l * 30102 / 100000) by (apply Z.div_pos; lia). lia.
    + assert (-1 <= l * 30103 / 100000) by (apply Z.div_le_lower_bound; lia). lia.
Qed.

Lemma digits2_pos_log2 (m : positive) :
  Z.pos (digits2_pos m) = Z.log2 (Z.pos m) + 1.
Proof.
  assert (Hsize : forall p, digits2_pos p = Pos.size p).
  { induction p as [p IH | p IH |]; simpl; rewrite ?IH; reflexivity. }
  rewrite Hsize. destruct m as [p | p |]; simpl; lia.
Qed.

(** The mantissa of a double has 53 bits, or fewer at the least
    exponent. *)
Lemma bounded_mantissa (m : positive) (e : Z) :
  bounded prec emax m e = true ->
  Z.pos m < 2 ^ 53 /\ (2 ^ 52 <= Z.pos m \/ e = -1074).
Proof.
  unfold bounded, canonical_mantissa, fexp, emin, prec, emax.
  intro H. apply andb_prop in H. destruct H as [Hcanon _].
  apply Z.eqb_eq in Hcanon. rewrite digits2_pos_log2 in Hcanon.
  destruct (Z.log2_spec (Z.pos m)) as [Hlow Hhigh]; [lia |].
  destruct (Z.max_spec (Z.log2 (Z.pos m) + 1 + e - 53) (3 - 1024 - 53)) as [[Hlt Hmax] | [Hge Hmax]];
    rewrite Hmax in Hcanon.
  - split; [| right; lia].
    apply Z.lt_le_trans with (1 := Hhigh). apply Z.pow_le_mono_r; lia.
  - assert (Hlog : Z.log2 (Z.pos m) = 52) by lia.
    rewrite Hlog in Hlow, Hhigh. split; [exact Hhigh | left; exact Hlow].
Qed.

Lemma compare_bounds (a lo hi : Z) :
  (a ?= lo) <> Lt -> (a ?= hi) <> Gt -> lo <= a <= hi.
Proof.
  intros Hlo Hhi.
  destruct (Z.compare_spec a lo), (Z.compare_spec a hi); try lia; congruence.
Qed.

(** When the digits found spell an integer [c] up to 99, [c] lies in the
    rounding interval of the double. *)
Lemma digits_search_sound (incl : bool) (vN loN hiN D start c : Z) (key : string)
    (s k n : Z) :
  0 < vN -> 0 < D ->
  (vN < 198 * D -> start + 8 < 18) ->
  (D <= vN -> 1 < start + 8) ->
  (forall s J, JS.intToString s ++ JS.repeat_char "0" J = key ->
               s * 10 ^ Z.of_nat J = c /\ (J <= 1)%nat) ->
  0 <= c <= 99 ->
  renormalise (JS.shortest 17 1 (JS.decimal_order 8 start vN D) incl vN loN hiN D) = (s, k, n) ->
  k <= n ->
  JS.intToString s ++ JS.repeat_char "0" (Z.to_nat (n - k)) = key ->
  loN <= c * D <= hiN.
Proof.
  intros HvN HD Hsmall Hlarge Hfmt Hc Hren Hkn Hout.
  destruct (JS.shortest 17 1 (JS.decimal_order 8 start vN D) incl vN loN hiN D)
    as [[s0 k0] n0] eqn:Hsh.
  apply shortest_spec in Hsh. destruct Hsh as [-> [Hk0 Hres]].
  pose proof (decimal_order_spec 8 start vN D) as Hord. cbv zeta in Hord.
  set (N := JS.decimal_order 8 start vN D) in *.
  destruct Hord as [Hfound Hrange].
  apply Hfmt in Hout. destruct Hout as [Hval HJ].
  rewrite Z2Nat.id in Hval by lia.
  assert (HJ' : n - k <= 1) by lia. clear HJ.
  unfold renormalise in Hren.
  destruct (Z.eqb_spec s0 (10 ^ k0)) as [Hs0 | Hs0]; injection Hren as <- <- <-.
  - (* the digits rolled over to a power of ten *)
    replace (N + 1 - 1) with N in * by lia.
    rewrite Z.mul_1_l in Hval.
    destruct Hres as [Hin | [Hk18 Hfloor]].
    + apply in_interval_bounds in Hin. destruct Hin as [Hlo Hhi].
      assert (Hcmp : forall X, JS.cmp_pow10 s0 (N - k0) X D = (c * D ?= X)).
      { intro X. apply cmp_pow10_value; [exact HD | |].
        - intro Hp. rewrite Hs0, <- Z.pow_add_r by lia.
          replace (k0 + (N - k0)) with N by lia. exact Hval.
        - intro Hp. rewrite Hs0, <- Hval, <- Z.pow_add_r by lia.
          f_equal. lia. }
      rewrite Hcmp in Hlo, Hhi. apply compare_bounds; assumption.
    + exfalso.
      unfold floor_digits in Hfloor.
      destruct (Z.leb_spec 0 (N - k0)) as [Hp | Hp]; [lia |].
      assert (Hpow : 10 ^ k0 = 10 ^ N * 10 ^ (- (N - k0))).
      { rewrite <- Z.pow_add_r by lia. f_equal. lia. }
      assert (Hpos : 0 < 10 ^ (- (N - k0))) by (apply Z.pow_pos_nonneg; lia).
      assert (Hmul : D * (vN * 10 ^ (- (N - k0)) / D) <= vN * 10 ^ (- (N - k0)))
        by (apply Z.mul_div_le; lia).
      rewrite <- Hfloor, Hs0, Hpow in Hmul.
      assert (Hge : D * 10 ^ N <= vN) by nia.
      assert (H1 : 0 < 10 ^ N) by (apply Z.pow_pos_nonneg; lia).
      destruct Hfound as [Htest | Hend].
      * destruct (Z.leb_spec 0 N); [apply Z.ltb_lt in Htest; lia | lia].
      * assert (D <= vN) by nia. specialize (Hlarge H). lia.
  - destruct Hres as [Hin | [Hk18 Hfloor]].
    + apply in_interval_bounds in Hin. destruct Hin as [Hlo Hhi].
      assert (Hcmp : forall X, JS.cmp_pow10 s0 (N - k0) X D = (c * D ?= X)).
      { intro X. apply cmp_pow10_value; [exact HD | intros _; exact Hval | lia]. }
      rewrite Hcmp in Hlo, Hhi. apply compare_bounds; assumption.
    + exfalso.
      unfold floor_digits in Hfloor.
      destruct (Z.leb_spec 0 (N - k0)) as [Hp | Hp]; [| lia].
      assert (Hpos : 0 < 10 ^ (N - k0)) by (apply Z.pow_pos_nonneg; lia).
      assert (Hlt : vN < D * 10 ^ (N - k0) * Z.succ (vN / (D * 10 ^ (N - k0))))
        by (apply Z.mul_succ_div_gt; nia).
      rewrite <- Hfloor in Hlt.
      assert (Hten : 10 ^ (N - k0) <= 10).
      { apply Z.le_trans with (10 ^ 1); [apply Z.pow_le_mono_r; lia | reflexivity]. }
      assert (vN < 198 * D) by nia.
      specialize (Hsmall H). lia.
Qed.

Lemma digits_of_search (m e : Z) :
  JS.digits_of m e =
  let lowest := (m =? 2 ^ 52) && negb (e =? -1074) in
  let loN0 := if lowest then 4 * m - 1 else 4 * m - 2 in
  let vN := if 0 <=? e - 2 then 4 * m * 2 ^ (e - 2) else 4 * m in
  let loN := if 0 <=? e - 2 then loN0 * 2 ^ (e - 2) else loN0 in
  let hiN := if 0 <=? e - 2 then (4 * m + 2) * 2 ^ (e - 2) else 4 * m + 2 in
  let D := if 0 <=? e - 2 then 1 else 2 ^ (- (e - 2)) in
  let l := Z.log2 vN - Z.log2 D - 1 in
  let start := (if 0 <=? l then l * 30102 / 100000 else l * 30103 / 100000) - 1 in
  renormalise (JS.shortest 17 1 (JS.decimal_order 8 start vN D) (Z.even m) vN loN hiN D).
Proof.
  unfold JS.digits_of, renormalise. destruct (0 <=? e - 2); reflexivity.
Qed.

(** A double printed as the numeral of an integer [c] up to 99 is
    [c * 2^(-e)] with a full mantissa. *)
Lemma finite_prints_integer (m : positive) (e c : Z) (key : string) :
  bounded prec emax m e = true ->
  JS.all_digits key = true ->
  (forall s J, JS.intToString s ++ JS.repeat_char "0" J = key ->
               s * 10 ^ Z.of_nat J = c /\ (J <= 1)%nat) ->
  0 <= c <= 99 ->
  (let '(s, k, n) := JS.digits_of (Z.pos m) e in JS.format_digits s k n) = key ->
  0 <= - e /\ Z.pos m = c * 2 ^ (- e) /\ 2 ^ 52 <= Z.pos m < 2 ^ 53.
Proof.
  intros Hvalid Hkey Hfmt Hc Hout.
  apply bounded_mantissa in Hvalid. destruct Hvalid as [Hupper Hnormal].
  destruct (JS.digits_of (Z.pos m) e) as [[s k] n] eqn:Hdigits.
  apply format_digit_string in Hout; [| exact Hkey]. destruct Hout as [Hkn Hout].
  rewrite digits_of_search in Hdigits. cbv zeta in Hdigits.
  set (M := Z.pos m) in *.
  assert (HM : 0 < M) by (unfold M; lia).
  set (loN0 := if (M =? 2 ^ 52) && negb (e =? -1074) then 4 * M - 1 else 4 * M - 2) in *.
  assert (HloN0 : 4 * M - 2 <= loN0)
    by (unfold loN0; destruct ((M =? 2 ^ 52) && negb (e =? -1074)); lia).
  destruct (0 <=? e - 2) eqn:Hsh; [apply Z.leb_le in Hsh | apply Z.leb_gt in Hsh].
  - (* the double is an integer multiple of four *)
    exfalso.
    assert (Hpow : 0 < 2 ^ (e - 2)) by (apply Z.pow_pos_nonneg; lia).
    assert (HvN : 0 < 4 * M * 2 ^ (e - 2)) by nia.
    destruct (start_bounds (4 * M * 2 ^ (e - 2)) 1) as [Hsmall Hlarge]; [nia | lia |].
    cbv zeta in Hsmall, Hlarge.
    pose proof (digits_search_sound _ _ _ _ _ _ c key s k n
                  HvN Z.lt_0_1 Hsmall Hlarge Hfmt Hc Hdigits Hkn Hout) as [Hlo _].
    assert (2 ^ 52 <= M) by (destruct Hnormal; lia).
    assert (H252 : 2 ^ 52 = 4503599627370496) by reflexivity.
    nia.
  - assert (HD : 0 < 2 ^ (- (e - 2))) by (apply Z.pow_pos_nonneg; lia).
    destruct (start_bounds (4 * M) (2 ^ (- (e - 2)))) as [Hsmall Hlarge]; [lia | lia |].
    cbv zeta in Hsmall, Hlarge.
    assert (HvN : 0 < 4 * M) by lia.
    pose proof (digits_search_sound _ _ _ _ _ _ c key s k n
                  HvN HD Hsmall Hlarge Hfmt Hc Hdigits Hkn Hout) as [Hlo Hhi].
    assert (H252 : 2 ^ 52 = 4503599627370496) by reflexivity.
    assert (H253 : 2 ^ 53 = 9007199254740992) by reflexivity.
    destruct (Z.eq_dec e 1) as [-> | He1].
    + exfalso. change (2 ^ (- (1 - 2))) with 2 in *.
      destruct Hnormal; lia.
    + replace (- (e - 2)) with (2 + - e) in * by lia.
      rewrite Z.pow_add_r in * by lia. change (2 ^ 2) with 4 in *.
      assert (HU : 0 < 2 ^ (- e)) by (apply Z.pow_pos_nonneg; lia).
      assert (Heq : M = c * 2 ^ (- e)) by lia.
      split; [lia | split; [exact Heq |]].
      split; [| lia].
      destruct Hnormal as [Hnorm | ->]; [exact Hnorm | exfalso].
      assert (Hbig : 2 ^ 53 <= 2 ^ (- -1074)) by (apply Z.pow_le_mono_r; lia).
      nia.
Qed.

Lemma pow2_pin (c j1 j2 : Z) :
  0 < c -> 0 <= j1 -> 0 <= j2 ->
  2 ^ 52 <= c * 2 ^ j1 < 2 ^ 53 ->
  2 ^ 52 <= c * 2 ^ j2 < 2 ^ 53 ->
  j1 = j2.
Proof.
  intros Hc H1 H2 Hr1 Hr2.
  assert (Hstep : forall a b, 0 <= a -> a < b -> 2 * 2 ^ a <= 2 ^ b).
  { intros a b Ha Hab. rewrite <- Z.pow_succ_r by exact Ha.
    apply Z.pow_le_mono_r; lia. }
  assert (H253 : 2 ^ 53 = 2 * 2 ^ 52) by reflexivity.
  destruct (Z.lt_trichotomy j1 j2) as [Hlt | [Heq | Hgt]]; [| exact Heq |].
  - specialize (Hstep j1 j2 H1 Hlt). nia.
  - specialize (Hstep j2 j1 H2 Hgt). nia.
Qed.

Lemma SFeqb_same_finite (m : positive) (e : Z) :
  SFeqb (S754_finite false m e) (S754_finite false m e) = true.
Proof.
  unfold SFeqb, SFcompare. rewrite Z.compare_refl, Pos.compare_cont_refl. reflexivity.
Qed.

(** A number whose printed form is the decimal numeral of an integer
    [c] from 0 to 99 is that integer. *)
Lemma printed_code_inv (key : string) (c j : Z) (listed : float) :
  JS.all_digits key = true ->
  (forall s J, JS.intToString s ++ JS.repeat_char "0" J = key ->
               s * 10 ^ Z.of_nat J = c /\ (J <= 1)%nat) ->
  0 <= c <= 99 -> 0 <= j ->
  (c <> 0 -> 2 ^ 52 <= c * 2 ^ j < 2 ^ 53) ->
  Prim2SF listed =
    (if c =? 0 then S754_zero false
     else S754_finite false (Z.to_pos (c * 2 ^ j)) (- j)) ->
  forall code, JS.numToString code = key -> (code =? listed)%float = true.
Proof.
  intros Hkey Hfmt Hc Hj Hrange Hlisted code Hprint.
  rewrite FloatAxioms.eqb_spec, Hlisted.
  pose proof (Prim2SF_valid code) as Hvalid.
  unfold JS.numToString in Hprint.
  destruct (Prim2SF code) as [sign | sign | | sign m e].
  - destruct (Hfmt 0 O) as [Hzero _]; [exact Hprint |].
    replace c with 0 by lia. destruct sign; reflexivity.
  - rewrite <- Hprint in Hkey. destruct sign; discriminate.
  - rewrite <- Hprint in Hkey. discriminate.
  - cbn [valid_binary] in Hvalid.
    destruct sign.
    + rewrite <- Hprint in Hkey.
      destruct (JS.digits_of (Z.pos m) e) as [[s k] n].
      discriminate.
    + change (let '(s, k, n) := JS.digits_of (Z.pos m) e in EmptyString ++ JS.format_digits s k n)
        with (let '(s, k, n) := JS.digits_of (Z.pos m) e in JS.format_digits s k n) in Hprint.
      destruct (finite_prints_integer m e c key Hvalid Hkey Hfmt Hc Hprint)
        as [He [Hm Hnormal]].
      assert (Hc0 : c <> 0) by (intros ->; lia).
      assert (Hje : - e = j).
      { apply (pow2_pin c); [lia | lia | lia | rewrite <- Hm; exact Hnormal | exact (Hrange Hc0)]. }
      destruct (Z.eqb_spec c 0) as [Habs | _]; [contradiction |].
      rewrite <- Hje, <- Hm, Pos2Z.id, Z.opp_involutive.
      apply SFeqb_same_finite.
Qed.

(** [===] numbers print alike ([0] and [-0] both as "0"). *)
Lemma float_eqb_prints (x y : float) :
  (x =? y)%float = true -> JS.numToString x = JS.numToString y.
Proof.
  rewrite FloatAxioms.eqb_spec. unfold JS.numToString, SFeqb, SFcompare.
  destruct (Prim2SF x) as [s1 | s1 | | s1 m1 e1], (Prim2SF y) as [s2 | s2 | | s2 m2 e2];
    try discriminate; try reflexivity;
    try (destruct s1; discriminate); try (destruct s2; discriminate).
  - destruct s1, s2; try discriminate; reflexivity.
  - destruct s1, s2; try discriminate.
    + destruct (Z.compare_spec e1 e2) as [-> | |]; try discriminate.
      destruct (Pos.compare_cont Eq m1 m2) eqn:Hm; try discriminate.
      apply (Pos.compare_eq m1 m2) in Hm. subst. reflexivity.
    + destruct (Z.compare_spec e1 e2) as [-> | |]; try discriminate.
      destruct (Pos.compare_cont Eq m1 m2) eqn:Hm; try discriminate.
      apply (Pos.compare_eq m1 m2) in Hm. subst. reflexivity.
Qed.

Lemma format_digits_start (s k n : Z) :
  exists c rest, JS.format_digits s k n = String c rest /\ numericStart c = true.
Proof.
  assert (Hstart : forall c, JS.is_digit c = true \/ c = "-"%char -> numericStart c = true).
  { intros c [Hd | ->]; unfold numericStart; [rewrite Hd |]; reflexivity. }
  destruct (intToString_first s) as (c & rest & Hs & Hc).
  unfold JS.format_digits. rewrite Hs.
  destruct ((k <=? n) && (n <=? 21)).
  { eexists; eexists; split; [reflexivity | auto]. }
  destruct ((0 <? n) && (n <=? 21)) eqn:Hn.
  { apply andb_prop in Hn. destruct Hn as [Hn _]. apply Z.ltb_lt in Hn.
    destruct (Z.to_nat n) as [| n'] eqn:Hnat; [lia |].
    eexists; eexists; split; [reflexivity | auto]. }
  destruct ((-6 <? n) && (n <=? 0)).
  { eexists; eexists; split; [reflexivity | reflexivity]. }
  destruct (k =? 1); eexists; eexists; split; try reflexivity; auto.
Qed.

(** A printed number starts with a digit, a minus sign, [N] or [I]. *)
Lemma numToString_start (x : float) :
  exists c rest, JS.numToString x = String c rest /\ numericStart c = true.
Proof.
  unfold JS.numToString.
  destruct (Prim2SF x) as [sign | sign | | sign m e].
  - eexists; eexists; split; reflexivity.
  - destruct sign; eexists; eexists; split; reflexivity.
  - eexists; eexists; split; reflexivity.
  - destruct (JS.digits_of (Z.pos m) e) as [[s k] n].
    destruct sign.
    + eexists; eexists; split; reflexivity.
    + apply format_digits_start.
Qed.

Lemma numeric_start_differs (c d : ascii) (r r' : string) :
  numericStart c = true -> numericStart d = false ->
  (String c r =? String d r')%string = false.
Proof.
  intros Hc Hd. cbn [String.eqb].
  destruct (Ascii.eqb_spec c d) as [-> | _]; [congruence | reflexivity].
Qed.

(** No number prints as the name of something an object inherits. *)
Lemma number_key_not_inherited (own : list (string * string)) (x : float) :
  JS.getProperty own (JS.numToString x) =
  option_map JS.StringValue (JS.assoc (JS.numToString x) own).
Proof.
  unfold JS.getProperty.
  destruct (JS.assoc (JS.numToString x) own) as [v |]; [reflexivity |].
  destruct (numToString_start x) as (c & rest & -> & Hc).
  unfold JS.objectPrototypeMethods. cbn [existsb].
  rewrite !(numeric_start_differs c _ rest _ Hc) by reflexivity.
  reflexivity.
Qed.

Lemma assoc_missing (key : string) (table : list (string * string)) :
  ~ In key (map fst table) -> JS.assoc key table = None.
Proof.
  induction table as [| [k v] rest IH]; intro Hnot; [reflexivity |].
  cbn [JS.assoc]. destruct (String.eqb_spec k key) as [-> | Hne].
  - exfalso. apply Hnot. left. reflexivity.
  - apply IH. intro Hin. apply Hnot. right. exact Hin.
Qed.

Lemma intToString_nonempty (s : Z) : JS.intToString s <> EmptyString.
Proof.
  destruct (intToString_first s) as (c & rest & Hs & _). rewrite Hs. discriminate.
Qed.

(** A number that prints as one of the table's keys is that code. *)
Lemma own_key_is_listed (code : float) :
  In (JS.numToString code) (map fst weatherCodes) ->
  exists listed, In listed documentedCodes /\ (code =? listed)%float = true.
Proof.
  intro Hin. unfold weatherCodes in Hin. cbn [map fst In] in Hin.
  repeat (destruct Hin as [Hin | Hin];
          [ match type of Hin with
            | ?key = _ =>
                let c := eval vm_compute in (JS.parse_digits 0 key) in
                let j := eval vm_compute in (if c =? 0 then 0 else 52 - Z.log2 c) in
                let listed := eval vm_compute in (PrimFloat.of_uint63 (Uint63.of_Z c)) in
                exists listed; split;
                [ unfold documentedCodes; cbn [In];
                  repeat (first [left; reflexivity | right])
                | symmetry in Hin; revert Hin; listed_code printed_code_inv intToString_nonempty intToString_inj key c j listed ]
            end
          | ]).
  contradiction.
Qed.

(** *** The table *)

Example getWeatherDescription_fog : getWeatherDescription 45 = "안개".
Proof. vm_compute. reflexivity. Qed.

Example getWeatherDescription_unlisted : getWeatherDescription 4 = "날씨 코드: 4".
Proof. vm_compute. reflexivity. Qed.

Example getWeatherDescription_negative : getWeatherDescription (-7) = "날씨 코드: -7".
Proof. vm_compute. reflexivity. Qed.

Example getWeatherDescription_fraction : getWeatherDescription 4.5 = "날씨 코드: 4.5".
Proof. vm_compute. reflexivity. Qed.

Example getWeatherDescription_large :
  getWeatherDescription 1e21 = "날씨 코드: 1e+21".
Proof. vm_compute. reflexivity. Qed.

Example getWeatherDescription_beyond_safe_integers :
  getWeatherDescription 18014398509481992 = "날씨 코드: 18014398509481990".
Proof. vm_compute. reflexivity. Qed.

Example getWeatherDescription_nan : getWeatherDescription nan = "날씨 코드: NaN".
Proof. vm_compute. reflexivity. Qed.

(** C4.  [getWeatherDescription] is defined on every number.  The table's
    keys are the 28 documented codes as JavaScript prints them; each of
    these codes is rendered as the description the table gives it, and so
    is any number [===] to it; every other number, so every other integer,
    is rendered as "날씨 코드: {code}", where {code} is the number as the
    template literal prints it. *)
Theorem getWeatherDescription_total :
  map fst weatherCodes = map JS.numToString documentedCodes /\
  map getWeatherDescription documentedCodes = map snd weatherCodes /\
  (forall code listed,
      In listed documentedCodes -> (code =? listed)%float = true ->
      getWeatherDescription code = getWeatherDescription listed) /\
  (forall code,
      (forall listed, In listed documentedCodes -> (code =? listed)%float = false) ->
      getWeatherDescription code = "날씨 코드: " ++ JS.numToString code).
Proof.
  split; [vm_compute; reflexivity |].
  split; [vm_compute; reflexivity |].
  split.
  - intros code listed _ Heq. unfold getWeatherDescription.
    rewrite (float_eqb_prints code listed Heq). reflexivity.
  - intros code Hother. unfold getWeatherDescription. cbv zeta.
    rewrite number_key_not_inherited, assoc_missing; [reflexivity |].
    intro Hin. apply own_key_is_listed in Hin. destruct Hin as (listed & Hlisted & Heq).
    rewrite (Hother listed Hlisted) in Heq. discriminate.
Qed.

Lemma getWeatherDescription_total_witness :
  getWeatherDescription 45 = "안개" /\
  getWeatherDescription (-0) = getWeatherDescription 0 /\
  getWeatherDescription 4 = "날씨 코드: " ++ JS.numToString 4 /\
  getWeatherDescription 1e21 = "날씨 코드: " ++ JS.numToString 1e21.
Proof.
  destruct getWeatherDescription_total as [_ [Hlisted [Hsame Hother]]].
  split; [| split; [| split]].
  - exact (f_equal (fun l => nth 4 l EmptyString) Hlisted).
  - apply Hsame; [left; reflexivity | reflexivity].
  - apply Hother. intros listed Hin. unfold documentedCodes in Hin. cbn [In] in Hin.
    repeat (destruct Hin as [<- | Hin]; [reflexivity |]). contradiction.
  - apply Hother. intros listed Hin. unfold documentedCodes in Hin. cbn [In] in Hin.
    repeat (destruct Hin as [<- | Hin]; [reflexivity |]). contradiction.
Defined.

(** ** The response shape *)

Lemma greet_mirrored : forall name language, resolvesMirrored (greet name language).
Proof. intros. unfold greet. resolved_mirrored. Qed.

Lemma calculator_mirrored : forall num1 num2 operator,
  resolvesMirrored (calculator num1 num2 operator).
Proof. intros. unfold calculator. resolved_mirrored. Qed.

Lemma time_tool_mirrored : forall now tzOffsetMinutes timezone,
  resolvesMirrored (time_tool now tzOffsetMinutes timezone).
Proof.
  intros. unfold time_tool.
  destruct (timezone_match timezone) as [[match1 match2] |]; resolved_mirrored.
Qed.

Lemma geocode_mirrored : forall fetch query, resolvesMirrored (geocode fetch query).
Proof.
  intros fetch query. unfold geocode, bind.
  destruct (fetch _ _) as [response | error]; [| resolved_mirrored].
  destruct (ok response); simpl; [| resolved_mirrored].
  destruct (json response) as [data | error]; [| resolved_mirrored].
  destruct data as [| [| result rest]]; resolved_mirrored.
Qed.

Lemma get_weather_mirrored :
  forall dateParse localTZA fetch latitude longitude forecastDays,
    resolvesMirrored
      (get_weather dateParse localTZA fetch latitude longitude forecastDays).
Proof.
  intros. unfold get_weather, bind.
  destruct (fetch _ _) as [response | error]; [| resolved_mirrored].
  destruct (ok response); simpl; [| resolved_mirrored].
  destruct (json response) as [[data |] | error]; try resolved_mirrored.
  destruct (current_weather data) as [current |]; resolved_mirrored.
Qed.

Lemma generate_image_mirrored : forall HF_TOKEN textToImage prompt,
  resolvesMirrored (generate_image HF_TOKEN textToImage prompt).
Proof.
  intros. unfold generate_image, bind, blobToBase64.
  destruct HF_TOKEN as [[| c token] |]; try resolved_mirrored.
  destruct (textToImage _ _) as [result | apiError]; resolved_mirrored.
Qed.

(** C9.  Whatever the input and whatever the outside world answers, each of
    the six tools resolves with a response whose content is a list of text
    blocks and whose [structuredContent.content] is that same list, element
    for element; the error texts are no exception. *)
Theorem structured_content_mirrors_content :
  (forall name language, resolvesMirrored (greet name language)) /\
  (forall num1 num2 operator, resolvesMirrored (calculator num1 num2 operator)) /\
  (forall now tzOffsetMinutes timezone,
      resolvesMirrored (time_tool now tzOffsetMinutes timezone)) /\
  (forall fetch query, resolvesMirrored (geocode fetch query)) /\
  (forall dateParse localTZA fetch latitude longitude forecastDays,
      resolvesMirrored
        (get_weather dateParse localTZA fetch latitude longitude forecastDays)) /\
  (forall HF_TOKEN textToImage prompt,
      resolvesMirrored (generate_image HF_TOKEN textToImage prompt)).
Proof.
  repeat split.
  - apply greet_mirrored.
  - apply calculator_mirrored.
  - apply time_tool_mirrored.
  - apply geocode_mirrored.
  - apply get_weather_mirrored.
  - apply generate_image_mirrored.
Qed.

(** ** geocode *)



Example geocode_keeps_display_name :
  geocode (fun _ _ =>
             Resolved {| ok := true; status := 200; statusText := "OK";
                         json := Resolved (Places [ {| lat := Some "48.8588897";
                                                       lon := Some "2.320041";
                                                       display_name := Some "Paris" |} ]) |})
          "paris" =
  Resolved (textResult ("위치: Paris" ++ JS.nl ++ "위도: 48.8588897" ++ JS.nl ++
                        "경도: 2.320041")).
Proof. vm_compute. reflexivity. Qed.

(** ** Domain-level errors *)



Lemma get_weather_http_failure :
  forall dateParse localTZA (fetch : Fetch (option Forecast))
         latitude longitude forecastDays response,
    (forall url headers, fetch url headers = Resolved response) ->
    ok response = false ->
    get_weather dateParse localTZA fetch latitude longitude forecastDays =
    Resolved (textResult ("오류: " ++ "API 요청 실패: " ++
                          JS.intToString (status response) ++ " " ++ statusText response)).
Proof.
  intros dateParse localTZA fetch latitude longitude forecastDays response Hfetch Hok.
  unfold get_weather, bind. rewrite Hfetch, Hok. reflexivity.
Qed.



Example geocode_reports_http_status :
  geocode unavailableReply "서울" =
  Resolved (textResult "오류: API 요청 실패: 503 Service Unavailable").
Proof. vm_compute. reflexivity. Qed.

Example generate_image_reports_missing_token :
  generate_image None (fun _ _ => Resolved "png") "a cat" =
  Resolved (textResult "오류: HF_TOKEN 환경 변수가 설정되지 않았습니다.").
Proof. reflexivity. Qed.




(** ** time *)

Example time_tool_in_utc_process :
  time_tool 1700000000000 0 "UTC-5" =
  Resolved (textResult "UTC-5 시간대의 현재 시각: 2023-11-14 17:13:20").
Proof. vm_compute. reflexivity. Qed.

Example time_tool_out_of_range :
  time_tool 1700000000000 0 "UTC+99999999999999" =
  Resolved (textResult "UTC+99999999999999 시간대의 현재 시각: NaN-NaN-NaN NaN:NaN:NaN").
Proof. vm_compute. reflexivity. Qed.

Lemma range_check : forall (P : Z -> bool) (lo : Z) (n : nat),
  forallb (fun k => P (lo + Z.of_nat k)) (seq 0 n) = true ->
  forall y, lo <= y < lo + Z.of_nat n -> P y = true.
Proof.
  intros P lo n Hall y Hy.
  rewrite forallb_forall in Hall.
  replace y with (lo + Z.of_nat (Z.to_nat (y - lo))) by lia.
  apply Hall. apply in_seq. lia.
Qed.

Lemma four_digit_year : forall y,
  1000 <= y <= 9999 -> JS.intToString y = JS.padZeros 4 y.
Proof.
  intros y Hy.
  assert (Hlen : (String.length (JS.intToString y) =? 4)%nat = true).
  { apply (range_check (fun z => (String.length (JS.intToString z) =? 4)%nat)
                       1000 (Z.to_nat 9000)).
    - vm_compute. reflexivity.
    - lia. }
  apply Nat.eqb_eq in Hlen. unfold JS.padZeros. rewrite Hlen. reflexivity.
Qed.

Lemma padStart2_pads : forall z,
  JS.padStart2 (JS.intToString z) = JS.padZeros 2 z.
Proof.
  intro z. unfold JS.padStart2, JS.padZeros.
  destruct (JS.intToString z) as [| c1 [| c2 rest]]; reflexivity.
Qed.

(** In a process whose zone is UTC the tool shows the current UTC instant
    shifted by the requested offset, as long as the result is a year of
    four digits. *)
Lemma time_tool_in_utc : forall now timezone sign digits,
  timezone_match timezone = Some (sign, digits) ->
  Z.abs (now + specifiedOffset sign digits) <= JS.maxTime ->
  1000 <= fst (fst (JS.civil_from_days ((now + specifiedOffset sign digits) / JS.msPerDay)))
       <= 9999 ->
  time_tool now 0 timezone =
  Resolved (textResult (timezone ++ " 시간대의 현재 시각: " ++
                        specifiedTimestamp (now + specifiedOffset sign digits))).
Proof.
  intros now timezone sign digits Hmatch Hrange Hyear.
  unfold time_tool. rewrite Hmatch.
  replace (now + 0 * 60 * 1000 +
           JS.parseInt10 digits * 60 * 60 * 1000 * (if (sign =? "+")%char then 1 else -1))
    with (now + specifiedOffset sign digits)
    by (unfold specifiedOffset; destruct (sign =? "+")%char; lia).
  unfold JS.newDate. apply Z.leb_le in Hrange. rewrite Hrange.
  unfold JS.getUTCFullYear, JS.getUTCMonth, JS.getUTCDate, JS.getUTCHours,
    JS.getUTCMinutes, JS.getUTCSeconds, JS.fieldToString, specifiedTimestamp,
    option_map.
  cbv beta iota.
  destruct (JS.civil_from_days ((now + specifiedOffset sign digits) / JS.msPerDay))
    as [[y m] d].
  cbn [fst snd] in *.
  rewrite (four_digit_year y Hyear), !padStart2_pads.
  replace (m - 1 + 1) with m by lia. reflexivity.
Qed.

(** C1, on the code.  At 2023-11-14T22:13:20Z the tool asked for UTC+9
    answers 2023-11-15 07:13:20 in a process whose zone is UTC, and
    2023-11-14 22:13:20 in a process whose zone is Asia/Seoul
    ([getTimezoneOffset()] is -540 there): the time shown is the requested
    one moved by the process's own offset, for every instant, offset and
    time zone string. *)
Theorem time_tool_follows_process_zone :
  time_tool 1700000000000 0 "UTC+9" =
    Resolved (textResult "UTC+9 시간대의 현재 시각: 2023-11-15 07:13:20") /\
  time_tool 1700000000000 (-540) "UTC+9" =
    Resolved (textResult "UTC+9 시간대의 현재 시각: 2023-11-14 22:13:20") /\
  (forall now tzOffsetMinutes timezone,
      time_tool now tzOffsetMinutes timezone =
      time_tool (now + tzOffsetMinutes * 60000) 0 timezone).
Proof.
  split; [vm_compute; reflexivity | split; [vm_compute; reflexivity |]].
  intros now tzOffsetMinutes timezone. unfold time_tool.
  destruct (timezone_match timezone) as [[match1 match2] |]; [| reflexivity].
  replace (now + tzOffsetMinutes * 60000 + 0 * 60 * 1000)
    with (now + tzOffsetMinutes * 60 * 1000) by lia.
  reflexivity.
Qed.

(** ** The time zone schema and the handler's own check *)

Lemma timezone_schema_iff_match : forall timezone,
  timezone_schema timezone = true <-> timezone_match timezone <> None.
Proof.
  intro timezone.
  destruct timezone as [| c1 [| c2 [| c3 [| sg ds]]]];
    try no_match.
  - by_bits c1.
  - by_bits c1. by_bits c2.
  - by_bits c1. by_bits c2. by_bits c3.
  - by_bits c1. by_bits c2. by_bits c3.
    unfold timezone_schema, timezone_match.
    destruct ds as [| d ds].
    + rewrite andb_false_r. no_match.
    + destruct (((sg =? "+")%char || (sg =? "-")%char) && JS.all_digits (String d ds)).
      * split; [discriminate | reflexivity].
      * no_match.
Qed.

Example bogus_fails_schema : timezone_schema "bogus" = false.
Proof. reflexivity. Qed.

Example utc_plus_9_passes_schema : timezone_schema "UTC+9" = true.
Proof. reflexivity. Qed.

(** C8.  An argument that does not match [^UTC[+-]\d+$] is answered with
    the protocol-level error InvalidArgument and no handler is run, whatever
    the handler; and for an argument that does match, the handler's own
    pattern check succeeds, so its malformed-time-zone branch is not taken:
    it resolves with "{timezone} 시간대의 현재 시각: ..." *)
Theorem time_schema_guards_handler :
  (forall handler timezone,
      timezone_schema timezone = false ->
      exists message,
        invoke_time handler timezone =
        ProtocolFailure (InvalidArgument "timezone" message)) /\
  (forall timezone,
      timezone_schema timezone = true -> timezone_match timezone <> None) /\
  (forall now tzOffsetMinutes timezone,
      timezone_schema timezone = true ->
      exists timeString,
        invoke_time (time_tool now tzOffsetMinutes) timezone =
        Handled (Resolved (textResult
                   (timezone ++ " 시간대의 현재 시각: " ++ timeString)))).
Proof.
  split; [| split].
  - intros handler timezone Hschema. unfold invoke_time. rewrite Hschema.
    eexists. reflexivity.
  - intros timezone Hschema. apply timezone_schema_iff_match. exact Hschema.
  - intros now tzOffsetMinutes timezone Hschema.
    unfold invoke_time. rewrite Hschema.
    apply timezone_schema_iff_match in Hschema.
    unfold time_tool.
    destruct (timezone_match timezone) as [[match1 match2] |]; [| contradiction].
    eexists. reflexivity.
Qed.

Lemma time_schema_guards_handler_witness :
  (exists message,
      invoke_time (time_tool 1700000000000 0) "bogus" =
      ProtocolFailure (InvalidArgument "timezone" message)) /\
  timezone_match "UTC+9" <> None /\
  (exists timeString,
      invoke_time (time_tool 1700000000000 0) "UTC+9" =
      Handled (Resolved (textResult ("UTC+9" ++ " 시간대의 현재 시각: " ++ timeString)))).
Proof.
  destruct time_schema_guards_handler as [Hrejected [Hmatch Haccepted]].
  split; [| split].
  - apply Hrejected. reflexivity.
  - apply Hmatch. reflexivity.
  - apply Haccepted. reflexivity.
Defined.

(** ** code-review *)

Lemma getSubstitution_plain : forall matched before after template,
  hasDollar template = false ->
  JS.getSubstitution matched before after template = template.
Proof.
  intros matched before after template.
  induction template as [| c rest IH]; simpl; intro Hplain.
  - reflexivity.
  - apply orb_false_elim in Hplain. destruct Hplain as [Hc Hrest].
    rewrite Hc. rewrite (IH Hrest). reflexivity.
Qed.

Lemma replace_plain : forall code,
  hasDollar code = false ->
  JS.replace codeReviewPromptTemplate "{code}" code = substituteCode code.
Proof.
  intros code Hplain. unfold JS.replace, substituteCode.
  destruct (JS.split_first "{code}" codeReviewPromptTemplate) as [[before after] |].
  - rewrite (getSubstitution_plain _ _ _ _ Hplain). reflexivity.
  - reflexivity.
Qed.

Lemma lower_char_idempotent : forall c, JS.lower_char (JS.lower_char c) = JS.lower_char c.
Proof.
  intro c. destruct c as [[|] [|] [|] [|] [|] [|] [|] [|]]; reflexivity.
Qed.

Lemma toLowerCase_idempotent : forall s,
  JS.toLowerCase (JS.toLowerCase s) = JS.toLowerCase s.
Proof.
  induction s as [| c rest IH]; simpl.
  - reflexivity.
  - rewrite lower_char_idempotent, IH. reflexivity.
Qed.

(** Every method name of [Object.prototype] has a capital letter, so no
    lowercased key is one of them. *)
Lemma lowercased_is_no_method : forall key,
  existsb (String.eqb (JS.toLowerCase key)) JS.objectPrototypeMethods = false.
Proof.
  intro key.
  destruct (existsb (String.eqb (JS.toLowerCase key)) JS.objectPrototypeMethods) eqn:Hex;
    [| reflexivity].
  apply existsb_exists in Hex. destruct Hex as [method [Hin Heq]].
  apply String.eqb_eq in Heq.
  assert (Hfixed : JS.toLowerCase method = method).
  { rewrite <- Heq. apply toLowerCase_idempotent. }
  unfold JS.objectPrototypeMethods in Hin. simpl in Hin.
  repeat (destruct Hin as [<- | Hin]; [discriminate Hfixed |]).
  contradiction.
Qed.

Lemma appendGuideline_block : forall table key prompt,
  JS.assoc EmptyString table = None ->
  ~ inheritedKey key ->
  appendGuideline table (argOrEmpty key) prompt = prompt ++ guidelineBlock table key.
Proof.
  intros table key prompt Hempty Hown.
  assert (Hnil : forall p : string, p ++ EmptyString = p).
  { induction p as [| c p IH]; simpl; [reflexivity | rewrite IH; reflexivity]. }
  destruct key as [[| c k] |]; simpl.
  - rewrite Hempty. symmetry. apply Hnil.
  - unfold JS.getProperty.
    change (String (JS.lower_char c) (JS.toLowerCase k))
      with (JS.toLowerCase (String c k)).
    destruct (JS.assoc (JS.toLowerCase (String c k)) table) as [[| b block] |] eqn:Hassoc.
    + simpl. symmetry. apply Hnil.
    + reflexivity.
    + simpl in Hown.
      destruct (String.eqb_spec (JS.toLowerCase (String c k)) "constructor") as [Heq | _].
      { exfalso. apply Hown. left. exact Heq. }
      destruct (String.eqb_spec (JS.toLowerCase (String c k)) "__proto__") as [Heq | _].
      { exfalso. apply Hown. right. exact Heq. }
      rewrite lowercased_is_no_method. simpl. symmetry. apply Hnil.
  - symmetry. apply Hnil.
Qed.

(** Where the generator does what the specification says: code without a
    dollar sign, and keys other than the two inherited names. *)
Lemma code_review_follows_template : forall code language focus,
  hasDollar code = false ->
  ~ inheritedKey language ->
  ~ inheritedKey focus ->
  code_review code language focus =
  Resolved (promptResult (specifiedReview code language focus)).
Proof.
  intros code language focus Hplain Hlanguage Hfocus.
  unfold code_review, promptResult, specifiedReview.
  rewrite (replace_plain code Hplain).
  rewrite (appendGuideline_block languageGuidelines language _ eq_refl Hlanguage).
  rewrite (appendGuideline_block focusGuidelines focus _ eq_refl Hfocus).
  reflexivity.
Qed.

Example code_review_python_security :
  code_review "x" (Some "Python") (Some "Security") =
  Resolved (promptResult
    (substituteCode "x" ++
     JS.nl ++ JS.nl ++ "**Python 특화 검토 사항:**" ++ JS.nl ++
     "- PEP 8 스타일 가이드 준수" ++ JS.nl ++
     "- 리스트 컴프리헨션 활용" ++ JS.nl ++
     "- 예외 처리와 컨텍스트 매니저 사용" ++
     JS.nl ++ JS.nl ++ "**보안 집중 검토:**" ++ JS.nl ++
     "- SQL 인젝션 방지" ++ JS.nl ++
     "- XSS 공격 방지" ++ JS.nl ++
     "- 인증 및 권한 검증" ++ JS.nl ++
     "- 민감 정보 노출 방지")).
Proof. vm_compute. reflexivity. Qed.

Example code_review_rust :
  code_review "x" (Some "rust") None = Resolved (promptResult (substituteCode "x")).
Proof. vm_compute. reflexivity. Qed.

(** C5, on the code.  The recognized keys are the ones the claim lists,
    but two unrecognized values do add text: [language = "constructor"]
    (and likewise [focus], and ["__proto__"]) finds the property every
    object literal inherits and appends its string form; and code holding
    [$&] is not substituted as it is, because [replace] reads its second
    argument as a replacement pattern. *)
Theorem code_review_appends_inherited_property :
  map fst languageGuidelines = ["typescript"; "javascript"; "python"; "java"; "go"] /\
  map fst focusGuidelines = ["performance"; "security"; "readability"] /\
  specifiedReview "x" (Some "constructor") None = substituteCode "x" /\
  code_review "x" (Some "constructor") None =
    Resolved (promptResult (substituteCode "x" ++ "function Object() { [native code] }")) /\
  code_review "x" None (Some "__proto__") =
    Resolved (promptResult (substituteCode "x" ++ "[object Object]")) /\
  code_review "$&" None None = Resolved (promptResult codeReviewPromptTemplate) /\
  code_review "$&" None None <> Resolved (promptResult (substituteCode "$&")).
Proof.
  repeat match goal with |- _ /\ _ => split end;
    try (vm_compute; reflexivity).
  vm_compute. intro H. discriminate H.
Qed.

(** ** server-info and the registry *)

Example server_info_opens_with_the_server :
  exists rest,
    server_info 12.5 1700000000123 =
    Resolved {| contents :=
      [ {| uri := "server://info"; mimeType := "application/json";
           resource_text :=
             "{" ++ JS.nl ++
             "  " ++ JS.quoteJSON "server" ++ ": {" ++ JS.nl ++
             "    " ++ JS.quoteJSON "name" ++ ": " ++ JS.quoteJSON "my-mcp-server" ++ "," ++ JS.nl ++
             "    " ++ JS.quoteJSON "version" ++ ": " ++ JS.quoteJSON "1.0.0" ++ "," ++ JS.nl ++
             "    " ++ JS.quoteJSON "uptime" ++ ": 12.5," ++ JS.nl ++
             "    " ++ JS.quoteJSON "timestamp" ++ ": " ++
               JS.quoteJSON "2023-11-14T22:13:20.123Z" ++ JS.nl ++
             "  }," ++ JS.nl ++ rest |} ] |}.
Proof. eexists. vm_compute. reflexivity. Qed.

(** The manifest's entries are the first five registered tools, in order,
    with the same names, descriptions and input field names. *)
Lemma manifest_entries_are_registered :
  map (fun entry =>
         (Manifest.name entry, Manifest.description entry,
          map fst (Manifest.input entry)))
      manifestTools =
  map (fun tool => (Tool.name tool, Tool.description tool, Tool.inputSchema tool))
      (firstn 5 (registeredTools server)).
Proof. reflexivity. Qed.

(** C7, on the code.  Six tools are registered; the manifest that every
    read of server-info returns lists the first five and leaves
    generate-image out. *)
Theorem manifest_omits_generate_image :
  map Tool.name (registeredTools server) =
    ["greet"; "calculator"; "time"; "geocode"; "get-weather"; "generate-image"] /\
  map Manifest.name manifestTools =
    ["greet"; "calculator"; "time"; "geocode"; "get-weather"] /\
  In "generate-image" (map Tool.name (registeredTools server)) /\
  ~ In "generate-image" (map Manifest.name manifestTools) /\
  (forall uptime now,
      server_info uptime now =
      Resolved {| contents :=
        [ {| uri := "server://info"; mimeType := "application/json";
             resource_text :=
               JS.stringify EmptyString
                 (JS.JObject
                    [ ("server",
                       JS.JObject
                         [ ("name", JS.JString "my-mcp-server");
                           ("version", JS.JString "1.0.0");
                           ("uptime", JS.JNumber uptime);
                           ("timestamp", JS.JString (JS.toISOString now)) ]);
                      ("tools", JS.JArray (map manifestToJson manifestTools)) ]) |} ] |}).
Proof.
  split; [reflexivity | split; [reflexivity | split; [| split]]].
  - simpl. tauto.
  - simpl. intros [H | [H | [H | [H | [H | []]]]]]; discriminate H.
  - intros uptime now. reflexivity.
Qed.

(** * Further properties of the handlers *)

(** ** Strings *)

Lemma append_empty : forall s : string, s ++ EmptyString = s.
Proof.
  induction s as [| c s IH]; simpl; [reflexivity | rewrite IH; reflexivity].
Qed.

Lemma append_associative : forall a b c : string, (a ++ b) ++ c = a ++ (b ++ c).
Proof.
  induction a as [| x a IH]; intros b c; simpl; [reflexivity | rewrite IH; reflexivity].
Qed.

Lemma containsChar_append : forall c a b,
  containsChar c (a ++ b) = containsChar c a || containsChar c b.
Proof.
  intros c a b. induction a as [| x a IH]; simpl.
  - reflexivity.
  - rewrite IH. apply orb_assoc.
Qed.

Lemma textResult_injective : forall t1 t2,
  Resolved (textResult t1) = Resolved (textResult t2) -> t1 = t2.
Proof.
  intros t1 t2 Heq. injection Heq as Heq _. exact Heq.
Qed.

(** ** greet and its schema *)

(** X1.  Once the schema has accepted the language argument, greet answers
    in Korean when 'ko' was given and in English when 'en' was given or the
    argument was left out; the schema accepts nothing else. *)
Theorem greet_after_validation : forall name raw language,
  greet_language_schema raw = Some language ->
  (raw = Some "ko" /\
   greet name language = Resolved (textResult ("안녕하세요, " ++ name ++ "님!"))) \/
  ((raw = None \/ raw = Some "en") /\
   greet name language =
   Resolved (textResult ("Hey there, " ++ name ++ "! 👋 Nice to meet you!"))).
Proof.
  intros name raw language Hschema.
  destruct raw as [given |]; simpl in Hschema.
  - destruct (String.eqb_spec given "ko") as [-> | Hko].
    + injection Hschema as <-. left. split; reflexivity.
    + destruct (String.eqb_spec given "en") as [-> | Hen].
      * injection Hschema as <-. right. split; [right |]; reflexivity.
      * discriminate Hschema.
  - injection Hschema as <-. right. split; [left |]; reflexivity.
Qed.

Lemma greet_after_validation_witness :
  (None = Some "ko" /\
   greet "Alice" "en" = Resolved (textResult ("안녕하세요, " ++ "Alice" ++ "님!"))) \/
  ((@None string = None \/ None = Some "en") /\
   greet "Alice" "en" =
   Resolved (textResult ("Hey there, " ++ "Alice" ++ "! 👋 Nice to meet you!"))).
Proof.
  apply (greet_after_validation "Alice" None "en"). reflexivity.
Defined.

(** ** calculator: its two error texts *)

Lemma formatted_has_equals_sign : forall a sym b r,
  containsChar "=" (a ++ sym ++ b ++ " = " ++ r) = true.
Proof.
  intros a sym b r. rewrite !containsChar_append. simpl.
  rewrite !orb_true_r. reflexivity.
Qed.

(** X2.  The calculator answers "오류: 지원하지 않는 연산자입니다." exactly for
    the operators its schema rejects: the [default] arm is taken for every
    string other than [+ - * /], and for none of these four. *)
Theorem calculator_unsupported_operator : forall num1 num2 operator,
  calculator num1 num2 operator =
    Resolved (textResult "오류: 지원하지 않는 연산자입니다.") <->
  operator_schema operator = None.
Proof.
  intros num1 num2 operator. unfold operator_schema, calculator. simpl existsb.
  cbv zeta.
  destruct (operator =? "+")%string;
    [split; [intro H; apply textResult_injective in H;
             apply (f_equal (containsChar "=")) in H;
             rewrite formatted_has_equals_sign in H; discriminate H
            | discriminate] |].
  destruct (operator =? "-")%string;
    [split; [intro H; apply textResult_injective in H;
             apply (f_equal (containsChar "=")) in H;
             rewrite formatted_has_equals_sign in H; discriminate H
            | discriminate] |].
  destruct (operator =? "*")%string;
    [split; [intro H; apply textResult_injective in H;
             apply (f_equal (containsChar "=")) in H;
             rewrite formatted_has_equals_sign in H; discriminate H
            | discriminate] |].
  destruct (operator =? "/")%string.
  - split; [| discriminate]. intro H. apply textResult_injective in H.
    destruct (num2 =? 0)%float.
    + discriminate H.
    + apply (f_equal (containsChar "=")) in H.
      rewrite formatted_has_equals_sign in H. discriminate H.
  - split; reflexivity.
Qed.

(** X3.  A division answers "오류: 0으로 나눌 수 없습니다." exactly when the
    divisor compares equal to zero, which -0 does and NaN does not. *)
Theorem calculator_zero_divisor : forall num1 num2,
  calculator num1 num2 "/" =
    Resolved (textResult "오류: 0으로 나눌 수 없습니다.") <->
  (num2 =? 0)%float = true.
Proof.
  intros num1 num2. unfold calculator.
  change ("/" =? "+")%string with false. change ("/" =? "-")%string with false.
  change ("/" =? "*")%string with false. change ("/" =? "/")%string with true.
  cbv iota zeta.
  destruct (num2 =? 0)%float.
  - split; reflexivity.
  - split; [| discriminate]. intro H. apply textResult_injective in H.
    apply (f_equal (containsChar "=")) in H.
    rewrite formatted_has_equals_sign in H. discriminate H.
Qed.

Example calculator_nan_divisor :
  calculator 1 (0 / 0) "/" = Resolved (textResult "1 ÷ NaN = NaN").
Proof. vm_compute. reflexivity. Qed.

Example calculator_percent_operator :
  calculator 1 2 "%" = Resolved (textResult "오류: 지원하지 않는 연산자입니다.").
Proof. reflexivity. Qed.

(** ** time: what it shows, whatever the process's zone *)

Lemma time_tool_shift : forall now tzOffsetMinutes timezone,
  time_tool now tzOffsetMinutes timezone =
  time_tool (now + tzOffsetMinutes * 60000) 0 timezone.
Proof.
  intros now tzOffsetMinutes timezone. unfold time_tool.
  destruct (timezone_match timezone) as [[match1 match2] |]; [| reflexivity].
  replace (now + tzOffsetMinutes * 60000 + 0 * 60 * 1000)
    with (now + tzOffsetMinutes * 60 * 1000) by lia.
  reflexivity.
Qed.

(** X4.  For a time zone string the handler's pattern accepts, the tool
    shows, as YYYY-MM-DD HH:MM:SS, the UTC calendar fields of the instant
    [now + getTimezoneOffset() minutes + the signed hour offset], as long as
    that instant is a valid date in a year of four digits. *)
Theorem time_tool_shows_shifted_instant :
  forall now tzOffsetMinutes timezone sign digits,
    timezone_match timezone = Some (sign, digits) ->
    Z.abs (now + tzOffsetMinutes * 60000 + specifiedOffset sign digits) <= JS.maxTime ->
    1000 <= fst (fst (JS.civil_from_days
                        ((now + tzOffsetMinutes * 60000 + specifiedOffset sign digits)
                         / JS.msPerDay))) <= 9999 ->
    time_tool now tzOffsetMinutes timezone =
    Resolved (textResult
      (timezone ++ " 시간대의 현재 시각: " ++
       specifiedTimestamp (now + tzOffsetMinutes * 60000 + specifiedOffset sign digits))).
Proof.
  intros now tzOffsetMinutes timezone sign digits Hmatch Hrange Hyear.
  rewrite time_tool_shift.
  apply (time_tool_in_utc _ _ _ _ Hmatch Hrange Hyear).
Qed.

Lemma time_tool_shows_shifted_instant_witness :
  time_tool 1700000000000 300 "UTC-5" =
  Resolved (textResult
    ("UTC-5" ++ " 시간대의 현재 시각: " ++
     specifiedTimestamp (1700000000000 + 300 * 60000 + specifiedOffset "-" "5"))).
Proof.
  apply (time_tool_shows_shifted_instant 1700000000000 300 "UTC-5" "-" "5").
  - reflexivity.
  - vm_compute. discriminate.
  - vm_compute. split; discriminate.
Defined.

Example time_tool_in_new_york :
  time_tool 1700000000000 300 "UTC-5" =
  Resolved (textResult "UTC-5 시간대의 현재 시각: 2023-11-14 22:13:20").
Proof. vm_compute. reflexivity. Qed.

(** X5.  When the shifted instant lies outside the range of a Date
    (more than 8.64e15 ms from 1970), every field of the time shown is
    NaN. *)
Theorem time_tool_outside_date_range :
  forall now tzOffsetMinutes timezone sign digits,
    timezone_match timezone = Some (sign, digits) ->
    JS.maxTime < Z.abs (now + tzOffsetMinutes * 60000 + specifiedOffset sign digits) ->
    time_tool now tzOffsetMinutes timezone =
    Resolved (textResult (timezone ++ " 시간대의 현재 시각: NaN-NaN-NaN NaN:NaN:NaN")).
Proof.
  intros now tzOffsetMinutes timezone sign digits Hmatch Hrange.
  unfold time_tool. rewrite Hmatch.
  replace (now + tzOffsetMinutes * 60 * 1000 +
           JS.parseInt10 digits * 60 * 60 * 1000 * (if (sign =? "+")%char then 1 else -1))
    with (now + tzOffsetMinutes * 60000 + specifiedOffset sign digits)
    by (unfold specifiedOffset; destruct (sign =? "+")%char; lia).
  unfold JS.newDate. apply Z.leb_gt in Hrange. rewrite Hrange. reflexivity.
Qed.

Lemma time_tool_outside_date_range_witness :
  time_tool 1700000000000 0 "UTC+2400000000" =
  Resolved (textResult ("UTC+2400000000" ++ " 시간대의 현재 시각: NaN-NaN-NaN NaN:NaN:NaN")).
Proof.
  apply (time_tool_outside_date_range 1700000000000 0 "UTC+2400000000" "+" "2400000000").
  - reflexivity.
  - vm_compute. reflexivity.
Defined.

(** X6.  The handler's pattern accepts exactly the strings "UTC", a sign
    [+] or [-], and one or more decimal digits; its two captures are that
    sign and those digits, so they spell the input back. *)
Theorem timezone_match_captures : forall timezone sign digits,
  timezone_match timezone = Some (sign, digits) <->
  timezone = "UTC" ++ String sign digits /\
  (sign = "+"%char \/ sign = "-"%char) /\
  digits <> EmptyString /\
  JS.all_digits digits = true.
Proof.
  intros timezone sign digits. split.
  - intro Hmatch.
    destruct timezone as [| c1 [| c2 [| c3 [| sg [| d ds]]]]];
      try discriminate Hmatch;
      try (destruct c1 as [[|] [|] [|] [|] [|] [|] [|] [|]]; try discriminate Hmatch;
           destruct c2 as [[|] [|] [|] [|] [|] [|] [|] [|]]; try discriminate Hmatch;
           destruct c3 as [[|] [|] [|] [|] [|] [|] [|] [|]]; discriminate Hmatch).
    destruct c1 as [[|] [|] [|] [|] [|] [|] [|] [|]]; try discriminate Hmatch.
    destruct c2 as [[|] [|] [|] [|] [|] [|] [|] [|]]; try discriminate Hmatch.
    destruct c3 as [[|] [|] [|] [|] [|] [|] [|] [|]]; try discriminate Hmatch.
    unfold timezone_match in Hmatch.
    destruct ((sg =? "+")%char || (sg =? "-")%char) eqn:Hsign; [| discriminate Hmatch].
    destruct (JS.all_digits (String d ds)) eqn:Hdigits; [| discriminate Hmatch].
    simpl in Hmatch. injection Hmatch as <- <-.
    split; [reflexivity | split; [| split; [discriminate | exact Hdigits]]].
    apply orb_true_iff in Hsign.
    destruct Hsign as [H | H]; apply Ascii.eqb_eq in H; [left | right]; exact H.
  - intros [-> [Hsign [Hnonempty Hdigits]]].
    destruct digits as [| d ds]; [contradiction |].
    change ("UTC" ++ String sign (String d ds))
      with (String "U" (String "T" (String "C" (String sign (String d ds))))).
    unfold timezone_match. rewrite Hdigits.
    destruct Hsign as [-> | ->]; reflexivity.
Qed.

(** ** geocode: the request and the reply *)

Lemma encodeURIComponent_cons : forall c rest,
  JS.encodeURIComponent (String c rest) =
  JS.encodeURIComponent (String c EmptyString) ++ JS.encodeURIComponent rest.
Proof.
  intros c rest. simpl. destruct (JS.is_unreserved c); reflexivity.
Qed.

Lemma encoded_char_has_no_delimiter : forall c delimiter,
  In delimiter urlDelimiters ->
  containsChar delimiter (JS.encodeURIComponent (String c EmptyString)) = false.
Proof.
  intros c delimiter Hin. unfold urlDelimiters in Hin. simpl in Hin.
  repeat (destruct Hin as [<- | Hin];
          [destruct c as [[|] [|] [|] [|] [|] [|] [|] [|]]; reflexivity |]).
  contradiction.
Qed.

Lemma encoded_query_has_no_delimiter : forall query delimiter,
  In delimiter urlDelimiters ->
  containsChar delimiter (JS.encodeURIComponent query) = false.
Proof.
  intros query delimiter Hin.
  induction query as [| c rest IH].
  - reflexivity.
  - rewrite encodeURIComponent_cons, containsChar_append, IH.
    rewrite (encoded_char_has_no_delimiter c delimiter Hin). reflexivity.
Qed.

(** X7.  For every query that is a well-formed string (on a lone
    surrogate [encodeURIComponent] throws before any request is made),
    geocode consults the search service through one request only, to the
    URL that carries the percent-encoded query in its [q] parameter with
    the User-Agent header; and the encoded query holds none of the
    characters [& = # ? / + : ; @] or a space, so the query cannot alter
    the rest of the URL. *)
Theorem geocode_requests_encoded_query : forall query,
  JS.isWellFormed query = true ->
  (forall delimiter,
      In delimiter urlDelimiters ->
      containsChar delimiter (JS.encodeURIComponent query) = false) /\
  (forall fetch1 fetch2 : Fetch GeocodeData,
      fetch1 (geocodeUrl query) [("User-Agent", "MCP-Geocode-Tool/1.0")] =
      fetch2 (geocodeUrl query) [("User-Agent", "MCP-Geocode-Tool/1.0")] ->
      geocode fetch1 query = geocode fetch2 query).
Proof.
  intros query _. split.
  - intros delimiter Hin. apply encoded_query_has_no_delimiter. exact Hin.
  - intros fetch1 fetch2 Hsame. unfold geocode, geocodeUrl in *.
    rewrite Hsame. reflexivity.
Qed.

Lemma geocode_requests_encoded_query_witness :
  JS.isWellFormed "a&b=c" = true /\
  containsChar "&" (JS.encodeURIComponent "a&b=c") = false /\
  geocode seoulReply "a&b=c" =
  geocode (fun url headers =>
             if (url =? geocodeUrl "a&b=c")%string then seoulReply url headers
             else Rejected (ErrorObject "unexpected request"))
          "a&b=c".
Proof.
  destruct (geocode_requests_encoded_query "a&b=c" eq_refl) as [Hsafe Hframe].
  split; [reflexivity | split].
  - apply Hsafe. simpl. left. reflexivity.
  - apply Hframe. reflexivity.
Defined.

Example isWellFormed_hangul : JS.isWellFormed "힣 서울" = true.
Proof. reflexivity. Qed.

Example isWellFormed_lone_surrogate :
  JS.isWellFormed
    (String (ascii_of_nat 237) (String (ascii_of_nat 160) (String (ascii_of_nat 128) EmptyString)))
  = false.
Proof. reflexivity. Qed.

Example geocode_url_sample :
  geocodeUrl "a&b=c" =
  "https://nominatim.openstreetmap.org/search?q=a%26b%3Dc&format=jsonv2&limit=1&addressdetails=1".
Proof. reflexivity. Qed.





(** ** get-weather: missing parts of the reply, and the days it lists *)

(** X10.  A successful reply whose body is [null], or has no
    [current_weather], is answered with
    "오류: 날씨 데이터를 가져올 수 없습니다.". *)
Theorem get_weather_without_current_weather :
  forall dateParse localTZA (fetch : Fetch (option Forecast))
         latitude longitude forecastDays response,
    fetch (weatherUrl latitude longitude forecastDays) [] = Resolved response ->
    ok response = true ->
    (json response = Resolved None \/
     exists data, json response = Resolved (Some data) /\ current_weather data = None) ->
    get_weather dateParse localTZA fetch latitude longitude forecastDays =
    Resolved (textResult ("오류: " ++ "날씨 데이터를 가져올 수 없습니다.")).
Proof.
  intros dateParse localTZA fetch latitude longitude forecastDays response
         Hfetch Hok Hbody.
  unfold get_weather, bind, weatherUrl in *. rewrite Hfetch, Hok. simpl negb. cbv iota.
  destruct Hbody as [Hjson | [data [Hjson Hcurrent]]]; rewrite Hjson.
  - reflexivity.
  - rewrite Hcurrent. reflexivity.
Qed.

Lemma get_weather_without_current_weather_witness :
  get_weather (fun _ => None) (fun _ => 0) noCurrentWeather 37 127 7 =
  Resolved (textResult ("오류: " ++ "날씨 데이터를 가져올 수 없습니다.")).
Proof.
  apply (get_weather_without_current_weather
           (fun _ => None) (fun _ => 0) noCurrentWeather 37 127 7 _ eq_refl eq_refl).
  right. eexists. split; reflexivity.
Defined.

(** X11.  A reply with [current_weather] but without [daily], or without
    [daily.time], is answered with the five lines of the current conditions
    and no forecast section. *)
Theorem get_weather_without_daily :
  forall dateParse localTZA (fetch : Fetch (option Forecast))
         latitude longitude forecastDays response data current,
    fetch (weatherUrl latitude longitude forecastDays) [] = Resolved response ->
    ok response = true ->
    json response = Resolved (Some data) ->
    current_weather data = Some current ->
    (daily data = None \/
     exists days, daily data = Some days /\ Daily.time days = None) ->
    get_weather dateParse localTZA fetch latitude longitude forecastDays =
    Resolved (textResult (currentConditions current)).
Proof.
  intros dateParse localTZA fetch latitude longitude forecastDays response data current
         Hfetch Hok Hjson Hcurrent Hdaily.
  unfold get_weather, bind, weatherUrl, currentConditions in *.
  rewrite Hfetch, Hok. simpl negb. cbv iota. rewrite Hjson, Hcurrent.
  destruct Hdaily as [Hnone | [days [Hsome Htime]]].
  - rewrite Hnone. reflexivity.
  - rewrite Hsome, Htime. reflexivity.
Qed.

Lemma get_weather_without_daily_witness :
  get_weather (fun _ => None) (fun _ => 0) currentOnly 37 127 7 =
  Resolved (textResult
    (currentConditions {| temperature := 3; weathercode := 61;
                          windspeed := 10; winddirection := 270 |})).
Proof.
  apply (get_weather_without_daily
           (fun _ => None) (fun _ => 0) currentOnly 37 127 7 _ _ _
           eq_refl eq_refl eq_refl eq_refl).
  left. reflexivity.
Defined.

Example get_weather_current_only_text :
  get_weather (fun _ => None) (fun _ => 0) currentOnly 37 127 7 =
  Resolved (textResult
    ("=== 현재 날씨 ===" ++ JS.nl ++ "온도: 3°C" ++ JS.nl ++ "날씨: 약한 비" ++ JS.nl ++
     "풍속: 10 km/h" ++ JS.nl ++ "풍향: 270°" ++ JS.nl ++ JS.nl)).
Proof. vm_compute. reflexivity. Qed.

Lemma fold_left_agree {A B : Type} (f g : A -> B -> A) (l : list B) :
  (forall a b, In b l -> f a b = g a b) ->
  forall a, fold_left f l a = fold_left g l a.
Proof.
  induction l as [| b l IH]; intros Hsame a; simpl.
  - reflexivity.
  - rewrite (Hsame a b (or_introl eq_refl)).
    apply IH. intros a' b' Hin. apply Hsame. right. exact Hin.
Qed.

Lemma firstn_default {A : Type} (n : nat) (array : option (list A)) :
  match option_map (firstn n) array with Some a => a | None => [] end =
  firstn n (match array with Some a => a | None => [] end).
Proof.
  destruct array as [a |]; simpl; [reflexivity | symmetry; apply firstn_nil].
Qed.

Lemma dailyEntry_firstn :
  forall dateParse localTZA n times maxTemps minTemps precipitations codes i,
    (i < n)%nat ->
    dailyEntry dateParse localTZA (firstn n times) (firstn n maxTemps)
               (firstn n minTemps) (firstn n precipitations) (firstn n codes) i =
    dailyEntry dateParse localTZA times maxTemps minTemps precipitations codes i.
Proof.
  intros dateParse localTZA n times maxTemps minTemps precipitations codes i Hi.
  unfold dailyEntry.
  rewrite nth_firstn, !nth_error_firstn.
  apply Nat.ltb_lt in Hi. rewrite Hi. reflexivity.
Qed.

(** X12.  get-weather reads no more than the first [forecastDays] entries
    of each daily array: cutting the arrays of the reply down to that
    length leaves its answer unchanged. *)
Theorem get_weather_reads_requested_days :
  forall dateParse localTZA (fetch : Fetch (option Forecast))
         latitude longitude forecastDays,
    get_weather dateParse localTZA
                (mapBody (truncateForecast (Z.to_nat forecastDays)) fetch)
                latitude longitude forecastDays =
    get_weather dateParse localTZA fetch latitude longitude forecastDays.
Proof.
  intros dateParse localTZA fetch latitude longitude forecastDays.
  unfold get_weather, bind, mapBody.
  destruct (fetch _ _) as [response | error]; [| reflexivity].
  cbn [ok status statusText json].
  destruct (ok response); cbn [negb]; cbv iota; [| reflexivity].
  destruct (json response) as [[data |] | error]; try reflexivity.
  cbn [truncateForecast option_map current_weather daily].
  destruct (current_weather data) as [current |]; [| reflexivity].
  destruct (daily data) as [days |]; [| reflexivity].
  cbn [option_map truncateDaily Daily.time Daily.temperature_2m_max
       Daily.temperature_2m_min Daily.precipitation_sum Daily.weathercode].
  destruct (Daily.time days) as [times |]; [| reflexivity].
  cbn [option_map]. rewrite !firstn_default.
  replace (Z.to_nat (Z.min (Z.of_nat (List.length (firstn (Z.to_nat forecastDays) times)))
                           forecastDays))
    with (Z.to_nat (Z.min (Z.of_nat (List.length times)) forecastDays))
    by (rewrite length_firstn; lia).
  rewrite fold_left_agree with
    (g := fun text i =>
            text ++ dailyEntry dateParse localTZA times
              match Daily.temperature_2m_max days with Some a => a | None => [] end
              match Daily.temperature_2m_min days with Some a => a | None => [] end
              match Daily.precipitation_sum days with Some a => a | None => [] end
              match Daily.weathercode days with Some a => a | None => [] end i).
  - reflexivity.
  - intros text i Hin. apply in_seq in Hin. f_equal.
    apply dailyEntry_firstn. lia.
Qed.

Example get_weather_two_of_three_days :
  get_weather parseThreeDays (fun _ => 0) threeDays 37 127 2 =
  Resolved (textResult
    ("=== 현재 날씨 ===" ++ JS.nl ++ "온도: 3°C" ++ JS.nl ++ "날씨: 약한 비" ++ JS.nl ++
     "풍속: 10 km/h" ++ JS.nl ++ "풍향: 270°" ++ JS.nl ++ JS.nl ++
     "=== 2일 예보 ===" ++ JS.nl ++
     JS.nl ++ "1/15 (2024-01-15)" ++ JS.nl ++ "  날씨: 흐림" ++ JS.nl ++
     "  최고: 5°C / 최저: 1°C" ++ JS.nl ++
     JS.nl ++ "1/16 (2024-01-16)" ++ JS.nl ++ "  날씨: 약한 비" ++ JS.nl ++
     "  최고: 6°C / 최저: null°C" ++ JS.nl ++ "  강수량: 2 mm" ++ JS.nl)).
Proof. vm_compute. reflexivity. Qed.

(** ** generate-image: the data URI and the failure texts *)

Lemma string_by_threes (P : string -> Prop) :
  P EmptyString ->
  (forall a, P (String a EmptyString)) ->
  (forall a b, P (String a (String b EmptyString))) ->
  (forall a b c rest, P rest -> P (String a (String b (String c rest)))) ->
  forall s, P s.
Proof.
  intros H0 H1 H2 H3 s.
  assert (Hall : P s /\ (forall a, P (String a s)) /\
                 (forall a b, P (String a (String b s)))).
  { induction s as [| c s [IH0 [IH1 IH2]]].
    - split; [exact H0 | split; [exact H1 | exact H2]].
    - split; [apply IH1 | split; [intro a; apply IH2 |]].
      intros a b. apply H3. exact IH0. }
  apply Hall.
Qed.

Lemma base64_index_char : forall n,
  (n < 64)%nat -> base64_index (JS.base64_char n) = n.
Proof.
  intros n Hn.
  assert (Hall : forallb (fun k => (base64_index (JS.base64_char k) =? k)%nat)
                         (seq 0 64) = true) by (vm_compute; reflexivity).
  rewrite forallb_forall in Hall.
  apply Nat.eqb_eq. apply Hall. apply in_seq. lia.
Qed.

Lemma base64_char_is_no_padding : forall n,
  (n < 64)%nat -> (JS.base64_char n =? "=")%char = false.
Proof.
  intros n Hn.
  assert (Hall : forallb (fun k => negb (JS.base64_char k =? "=")%char)
                         (seq 0 64) = true) by (vm_compute; reflexivity).
  rewrite forallb_forall in Hall.
  apply negb_true_iff. apply Hall. apply in_seq. lia.
Qed.

Lemma base64_decode_four : forall c1 c2 c3 c4 rest,
  base64_decode (String c1 (String c2 (String c3 (String c4 rest)))) =
  (if (c3 =? "=")%char
   then String (ascii_of_nat (base64_index c1 * 4 + base64_index c2 / 16)) EmptyString
   else if (c4 =? "=")%char
   then String (ascii_of_nat (base64_index c1 * 4 + base64_index c2 / 16))
          (String (ascii_of_nat (base64_index c2 mod 16 * 16 + base64_index c3 / 4))
             EmptyString)
   else String (ascii_of_nat (base64_index c1 * 4 + base64_index c2 / 16))
          (String (ascii_of_nat (base64_index c2 mod 16 * 16 + base64_index c3 / 4))
             (String (ascii_of_nat (base64_index c3 mod 4 * 64 + base64_index c4))
                (base64_decode rest))))%nat.
Proof. reflexivity. Qed.

Lemma base64_round_trip : forall bytes, base64_decode (JS.base64 bytes) = bytes.
Proof.
  apply string_by_threes.
  - reflexivity.
  - intro a.
    change (JS.base64 (String a EmptyString))
      with (String (JS.base64_char (nat_of_ascii a / 4))
              (String (JS.base64_char (nat_of_ascii a mod 4 * 16)) "==")).
    rewrite <- (ascii_nat_embedding a) at 3.
    pose proof (nat_ascii_bounded a) as Ha.
    generalize dependent (nat_of_ascii a). intros x Hx.
    euclid x 4%nat. euclid (x mod 4 * 16)%nat 16%nat.
    rewrite base64_decode_four. cbn [Ascii.eqb Bool.eqb].
    rewrite !base64_index_char by lia.
    do 2 f_equal. lia.
  - intros a b.
    change (JS.base64 (String a (String b EmptyString)))
      with (String (JS.base64_char (nat_of_ascii a / 4))
              (String (JS.base64_char (nat_of_ascii a mod 4 * 16 + nat_of_ascii b / 16))
                 (String (JS.base64_char (nat_of_ascii b mod 16 * 4)) "="))).
    rewrite <- (ascii_nat_embedding a) at 3. rewrite <- (ascii_nat_embedding b) at 3.
    pose proof (nat_ascii_bounded a) as Ha. pose proof (nat_ascii_bounded b) as Hb.
    generalize dependent (nat_of_ascii a). intros x Hx.
    generalize dependent (nat_of_ascii b). intros y Hy.
    euclid x 4%nat. euclid y 16%nat.
    euclid (x mod 4 * 16 + y / 16)%nat 16%nat. euclid (y mod 16 * 4)%nat 4%nat.
    rewrite base64_decode_four.
    rewrite base64_char_is_no_padding by lia. cbn [Ascii.eqb Bool.eqb].
    rewrite !base64_index_char by lia.
    f_equal; [f_equal; lia | f_equal; f_equal; lia].
  - intros a b c rest IH.
    change (JS.base64 (String a (String b (String c rest))))
      with (String (JS.base64_char (nat_of_ascii a / 4))
              (String (JS.base64_char (nat_of_ascii a mod 4 * 16 + nat_of_ascii b / 16))
                 (String (JS.base64_char (nat_of_ascii b mod 16 * 4 + nat_of_ascii c / 64))
                    (String (JS.base64_char (nat_of_ascii c mod 64)) (JS.base64 rest))))).
    rewrite <- (ascii_nat_embedding a) at 3. rewrite <- (ascii_nat_embedding b) at 3.
    rewrite <- (ascii_nat_embedding c) at 3.
    pose proof (nat_ascii_bounded a) as Ha. pose proof (nat_ascii_bounded b) as Hb.
    pose proof (nat_ascii_bounded c) as Hc.
    generalize dependent (nat_of_ascii a). intros x Hx.
    generalize dependent (nat_of_ascii b). intros y Hy.
    generalize dependent (nat_of_ascii c). intros z Hz.
    euclid x 4%nat. euclid y 16%nat. euclid z 64%nat.
    euclid (x mod 4 * 16 + y / 16)%nat 16%nat. euclid (y mod 16 * 4 + z / 64)%nat 4%nat.
    rewrite base64_decode_four.
    rewrite !base64_char_is_no_padding by lia.
    rewrite !base64_index_char by lia.
    rewrite IH.
    f_equal; [f_equal; lia | f_equal; [f_equal; lia | f_equal; f_equal; lia]].
Qed.

(** X13.  With a token and an image from the API, generate-image answers
    with the text "data:image/png;base64," followed by the base64 encoding
    of the image, from which decoding gives back the image's bytes; so
    different images get different answers. *)
Theorem generate_image_returns_data_uri :
  forall c token textToImage prompt blob,
    textToImage (String c token) prompt = Resolved blob ->
    exists base64Data,
      blobToBase64 blob = Resolved base64Data /\
      generate_image (Some (String c token)) textToImage prompt =
        Resolved (textResult ("data:image/png;base64," ++ base64Data)) /\
      base64_decode base64Data = blob.
Proof.
  intros c token textToImage prompt blob Himage.
  exists (JS.base64 blob). split; [reflexivity | split].
  - unfold generate_image, bind, blobToBase64. rewrite Himage. reflexivity.
  - apply base64_round_trip.
Qed.

Lemma generate_image_returns_data_uri_witness :
  exists base64Data,
    blobToBase64 "Man" = Resolved base64Data /\
    generate_image (Some "hf_token") (fun _ _ => Resolved "Man") "a cat" =
      Resolved (textResult ("data:image/png;base64," ++ base64Data)) /\
    base64_decode base64Data = "Man".
Proof.
  apply (generate_image_returns_data_uri "h" "f_token" (fun _ _ => Resolved "Man")
           "a cat" "Man").
  reflexivity.
Defined.

Example generate_image_sample :
  generate_image (Some "hf_token") (fun _ _ => Resolved "Man") "a cat" =
  Resolved (textResult "data:image/png;base64,TWFu").
Proof. reflexivity. Qed.

(** X14.  When the image API throws, generate-image answers "오류: Hugging
    Face API 호출 실패: {what was thrown}. HF_TOKEN이 올바르게 설정되어 있는지
    확인해주세요.", where what was thrown is the Error's message, or the
    string form of a value that is not an Error. *)
Theorem generate_image_reports_api_failure :
  forall c token textToImage prompt apiError,
    textToImage (String c token) prompt = Rejected apiError ->
    generate_image (Some (String c token)) textToImage prompt =
    Resolved (textResult
      ("오류: " ++ "Hugging Face API 호출 실패: " ++
       match apiError with
       | ErrorObject message => message
       | OtherValue asString => asString
       end ++ ". HF_TOKEN이 올바르게 설정되어 있는지 확인해주세요.")).
Proof.
  intros c token textToImage prompt apiError Hfail.
  unfold generate_image, bind. rewrite Hfail. reflexivity.
Qed.

Lemma generate_image_reports_api_failure_witness :
  generate_image (Some "hf_token") (fun _ _ => Rejected (OtherValue "429")) "a cat" =
  Resolved (textResult
    ("오류: " ++ "Hugging Face API 호출 실패: " ++ "429" ++
     ". HF_TOKEN이 올바르게 설정되어 있는지 확인해주세요.")).
Proof.
  apply (generate_image_reports_api_failure "h" "f_token"
           (fun _ _ => Rejected (OtherValue "429")) "a cat" (OtherValue "429")).
  reflexivity.
Defined.

(** ** code-review: recognized keys *)

(** X15.  For code without a dollar sign, and language and focus values
    that do not lowercase to "constructor" or "__proto__", the prompt is
    the review template with the code in place of [{code}], followed by the
    guideline block of the language when its lowercase is one of
    typescript, javascript, python, java, go, and then by that of the focus
    when its lowercase is one of performance, security, readability; a
    value outside these lists, a missing one and an empty one add
    nothing. *)
Theorem code_review_matches_specified_review : forall code language focus,
  hasDollar code = false ->
  ~ inheritedKey language ->
  ~ inheritedKey focus ->
  code_review code language focus =
  Resolved (promptResult (specifiedReview code language focus)).
Proof.
  intros code language focus Hplain Hlanguage Hfocus.
  apply code_review_follows_template; assumption.
Qed.

Lemma code_review_matches_specified_review_witness :
  code_review "const x = 1" (Some "TypeScript") (Some "speed") =
  Resolved (promptResult
    (specifiedReview "const x = 1" (Some "TypeScript") (Some "speed"))).
Proof.
  apply (code_review_matches_specified_review
           "const x = 1" (Some "TypeScript") (Some "speed")).
  - reflexivity.
  - simpl. intros [H | H]; discriminate H.
  - simpl. intros [H | H]; discriminate H.
Defined.

Example specified_review_sample :
  specifiedReview "const x = 1" (Some "TypeScript") (Some "speed") =
  substituteCode "const x = 1" ++
  JS.nl ++ JS.nl ++ "**TypeScript 특화 검토 사항:**" ++ JS.nl ++
  "- 타입 안정성과 타입 추론" ++ JS.nl ++
  "- 제네릭 사용의 적절성" ++ JS.nl ++
  "- 인터페이스와 타입 정의의 명확성".
Proof. vm_compute. reflexivity. Qed.

Lemma appendGuideline_by_lowercase : forall table key1 key2 prompt,
  JS.toLowerCase key1 = JS.toLowerCase key2 ->
  appendGuideline table key1 prompt = appendGuideline table key2 prompt.
Proof.
  intros table key1 key2 prompt Hsame.
  destruct key1 as [| c1 k1], key2 as [| c2 k2]; try discriminate Hsame.
  - reflexivity.
  - unfold appendGuideline. rewrite Hsame. reflexivity.
Qed.

(** X16.  The prompt depends on the language and the focus through their
    lowercase only: two calls whose language values, and whose focus
    values, differ in letter case alone produce the same prompt. *)
Theorem code_review_ignores_letter_case :
  forall code language1 language2 focus1 focus2,
    JS.toLowerCase language1 = JS.toLowerCase language2 ->
    JS.toLowerCase focus1 = JS.toLowerCase focus2 ->
    code_review code (Some language1) (Some focus1) =
    code_review code (Some language2) (Some focus2).
Proof.
  intros code language1 language2 focus1 focus2 Hlanguage Hfocus.
  unfold code_review, argOrEmpty.
  rewrite (appendGuideline_by_lowercase languageGuidelines _ _ _ Hlanguage).
  rewrite (appendGuideline_by_lowercase focusGuidelines _ _ _ Hfocus).
  reflexivity.
Qed.

Lemma code_review_ignores_letter_case_witness :
  code_review "x" (Some "PYTHON") (Some "Security") =
  code_review "x" (Some "python") (Some "SECURITY").
Proof.
  apply (code_review_ignores_letter_case "x" "PYTHON" "python" "Security" "SECURITY");
    reflexivity.
Defined.

(** ** server-info: the tools it does list *)

(** X17.  Every tool the server-info manifest lists is a registered tool,
    under the same name, with the same description and the same input
    field names. *)
Theorem manifest_lists_registered_tools : forall entry,
  In entry manifestTools ->
  exists tool,
    In tool (registeredTools server) /\
    Tool.name tool = Manifest.name entry /\
    Tool.description tool = Manifest.description entry /\
    Tool.inputSchema tool = map fst (Manifest.input entry).
Proof.
  intros entry Hin.
  apply (in_map (fun entry =>
                   (Manifest.name entry, Manifest.description entry,
                    map fst (Manifest.input entry)))) in Hin.
  rewrite manifest_entries_are_registered in Hin.
  apply in_map_iff in Hin. destruct Hin as [tool [Hsame Htool]].
  exists tool. injection Hsame as Hname Hdescription Hfields.
  split; [| split; [exact Hname | split; [exact Hdescription | exact Hfields]]].
  rewrite <- (firstn_skipn 5 (registeredTools server)).
  apply in_or_app. left. exact Htool.
Qed.

Lemma manifest_lists_registered_tools_witness :
  exists tool,
    In tool (registeredTools server) /\
    Tool.name tool = "time" /\
    Tool.description tool = "시간대를 입력받아 해당 시간대의 현재 시각을 반환합니다." /\
    Tool.inputSchema tool = ["timezone"].
Proof.
  apply (manifest_lists_registered_tools
           {| Manifest.name := "time";
              Manifest.description := "시간대를 입력받아 해당 시간대의 현재 시각을 반환합니다.";
              Manifest.input :=
                [ ("timezone", "string - 시간대 (예: UTC+9, UTC+0, UTC-5)") ] |}).
  simpl. right. right. left. reflexivity.
Defined.

(** ** get-weather: the request *)

(** X18.  get-weather consults the forecast service through one request
    only, without headers, to the URL that carries the latitude, the
    longitude and the number of days as they print: two clients that answer
    that request alike lead to the same answer. *)
Theorem get_weather_requests_forecast_url :
  forall dateParse localTZA (fetch1 fetch2 : Fetch (option Forecast))
         latitude longitude forecastDays,
    fetch1 (weatherUrl latitude longitude forecastDays) [] =
    fetch2 (weatherUrl latitude longitude forecastDays) [] ->
    get_weather dateParse localTZA fetch1 latitude longitude forecastDays =
    get_weather dateParse localTZA fetch2 latitude longitude forecastDays.
Proof.
  intros dateParse localTZA fetch1 fetch2 latitude longitude forecastDays Hsame.
  unfold get_weather, weatherUrl in *. rewrite Hsame. reflexivity.
Qed.

Lemma get_weather_requests_forecast_url_witness :
  get_weather parseThreeDays (fun _ => 0) threeDays (JS.parseFloat "37.5") 127 2 =
  get_weather parseThreeDays (fun _ => 0)
    (fun url headers =>
       if (url =? weatherUrl (JS.parseFloat "37.5") 127 2)%string
       then threeDays url headers
       else Rejected (ErrorObject "unexpected request"))
    (JS.parseFloat "37.5") 127 2.
Proof.
  apply (get_weather_requests_forecast_url parseThreeDays (fun _ => 0) threeDays _
           (JS.parseFloat "37.5") 127 2).
  vm_compute. reflexivity.
Defined.

Example weatherUrl_sample :
  weatherUrl (JS.parseFloat "37.5") (JS.parseFloat "-122.25") 7 =
  "https://api.open-meteo.com/v1/forecast?latitude=37.5&longitude=-122.25" ++
  "&current_weather=true&hourly=temperature_2m,precipitation,weathercode" ++
  "&daily=temperature_2m_max,temperature_2m_min,precipitation_sum,weathercode" ++
  "&forecast_days=7&timezone=auto".
Proof. vm_compute. reflexivity. Qed.
